(** * Agentic map assistant: the session controller and the map view

    A shallow embedding of [src/frontend/src/components/MapView.tsx]
    (the [MapView] component with its [MapUpdater], and the [HomeClient]
    page that owns the chat transcript, the model registry and the map
    state) together with the properties the specification states about
    them.

    The program is TypeScript running on a JavaScript engine: the values it
    receives from the network are whatever [JSON.parse] produced, and the
    type annotations are erased.  The embedding therefore works on
    JavaScript values, with the engine's truthiness, [typeof],
    [Array.isArray], [||], [&&] and [?.] written out. *)

From Stdlib Require Import List Arith NArith Bool String Ascii Floats.
From Stdlib Require Import DecimalString DecimalN DecimalPos Lia.
Import ListNotations.

Set Warnings "-inexact-float,-register-all".

(* ------------------------------------------------------------------ *)
(** * JavaScript values *)

Module JS.

(** A JavaScript string is a sequence of UTF-16 code units. *)
Definition jsstring : Type := list N.

(** Decoder used to write the program's string literals: the bytes of a
    UTF-8 literal to code units.  Every literal of the source lies in the
    Basic Multilingual Plane, so sequences of one to three bytes are
    enough. *)
Fixpoint utf8_decode (bs : list N) : jsstring :=
  match bs with
  | [] => []
  | b0 :: r0 =>
      if (b0 <? 128)%N then b0 :: utf8_decode r0
      else
        match r0 with
        | [] => []
        | b1 :: r1 =>
            if (b0 <? 224)%N
            then ((b0 mod 32) * 64 + b1 mod 64)%N :: utf8_decode r1
            else
              match r1 with
              | [] => []
              | b2 :: r2 =>
                  ((b0 mod 16) * 4096 + (b1 mod 64) * 64 + b2 mod 64)%N
                    :: utf8_decode r2
              end
        end
  end.

Definition lit (s : string) : jsstring :=
  utf8_decode (map N_of_ascii (list_ascii_of_string s)).

Fixpoint jsstring_eqb (a b : jsstring) : bool :=
  match a, b with
  | [], [] => true
  | x :: a', y :: b' => (x =? y)%N && jsstring_eqb a' b'
  | _, _ => false
  end.

(** The values [JSON.parse] produces, and [undefined], which property
    access yields for a missing property.  An object is the ordered list
    of its own properties. *)
Inductive value : Type :=
| JUndefined
| JNull
| JBool (b : bool)
| JNum (x : float)
| JStr (s : jsstring)
| JArr (elems : list value)
| JObj (props : list (jsstring * value)).

(** [ToBoolean]: [undefined], [null], [false], [+0], [-0], [NaN] and the
    empty string are falsy; every array and object is truthy. *)
Definition truthy (v : value) : bool :=
  match v with
  | JUndefined | JNull => false
  | JBool b => b
  | JNum x => negb (PrimFloat.eqb x 0) && PrimFloat.eqb x x
  | JStr s => match s with [] => false | _ => true end
  | JArr _ | JObj _ => true
  end.

Definition nullish (v : value) : bool :=
  match v with
  | JUndefined | JNull => true
  | _ => false
  end.

(** [typeof v === "number"] *)
Definition is_number (v : value) : bool :=
  match v with
  | JNum _ => true
  | _ => false
  end.

(** [Array.isArray(v)] *)
Definition isArray (v : value) : bool :=
  match v with
  | JArr _ => true
  | _ => false
  end.

Fixpoint lookup (k : jsstring) (props : list (jsstring * value)) : value :=
  match props with
  | [] => JUndefined
  | (k', v) :: rest => if jsstring_eqb k k' then v else lookup k rest
  end.

(** [v.k] on a value that is neither [null] nor [undefined], for the
    property names the program reads ([response], [center], [places],
    [lat], [lon], [name], [address], [detail], [data], [id]): an own
    property of an object, [undefined] on anything else (none of these
    names is inherited from a prototype or defined on arrays, strings,
    numbers or booleans). *)
Definition get (v : value) (k : jsstring) : value :=
  match v with
  | JObj props => lookup k props
  | _ => JUndefined
  end.

(** [v.k] where the source does not guard against [null] and
    [undefined]: [None] is the [TypeError] the engine throws. *)
Definition get_checked (v : value) (k : jsstring) : option value :=
  if nullish v then None else Some (get v k).

(** [v?.k] *)
Definition optchain (v : value) (k : jsstring) : value :=
  if nullish v then JUndefined else get v k.

(** [a || b] and [a && b] *)
Definition js_or (a b : value) : value := if truthy a then a else b.
Definition js_and (a b : value) : value := if truthy a then b else a.

(** ECMAScript [WhiteSpace] and [LineTerminator] code points, the ones
    [String.prototype.trim] strips. *)
Definition is_whitespace (c : N) : bool :=
  existsb (N.eqb c)
    [9; 10; 11; 12; 13; 32; 160; 5760;
     8192; 8193; 8194; 8195; 8196; 8197; 8198; 8199; 8200; 8201; 8202;
     8232; 8233; 8239; 8287; 12288; 65279]%N.

Fixpoint trimStart (s : jsstring) : jsstring :=
  match s with
  | [] => []
  | c :: s' => if is_whitespace c then trimStart s' else s
  end.

Definition trimEnd (s : jsstring) : jsstring := rev (trimStart (rev s)).

(** [s.trim()] *)
Definition trim (s : jsstring) : jsstring := trimEnd (trimStart s).

(** The decimal digits of a non-negative integer, as a template literal
    prints an integral number such as [res.status]. *)
Definition decimal (n : N) : jsstring :=
  lit (NilZero.string_of_uint (N.to_uint n)).

End JS.

Import JS.

(* ------------------------------------------------------------------ *)
(** * The engine's conversions *)

Section Engine.

(** Three functions of the JavaScript engine that the program calls
    implicitly and whose results it stores: the decimal form of a number
    ([Number::toString]), used when a value is turned into a string; the
    message of the [TypeError] raised by reading property [k] of [null]
    or [undefined]; and the message of the [TypeError] raised for an
    object that cannot be converted to a primitive value. *)
Variable NumberToString : float -> jsstring.
Variable TypeErrorMessage : value -> jsstring -> jsstring.
Variable ToPrimitiveErrorMessage : value -> jsstring.

(** How [ToString] ends: with a string, or with a [TypeError] for the
    object that cannot be converted. *)
Inductive Converted : Type :=
| AsString (s : jsstring)
| CannotConvert (culprit : value).

(** Whether an object has an own property [k]. *)
Definition has_own (k : jsstring) (props : list (jsstring * value)) : bool :=
  existsb (fun kv => jsstring_eqb k (fst kv)) props.

(** [ToString] on the values of this model, as a template literal and
    the [Error] constructor apply it.  An array joins its elements with
    commas, [null] and [undefined] elements printing as nothing.  An
    object is converted by its [toString] method: the inherited one gives
    "[object Object]"; an own property [toString] hides it, and since no
    value of this model is callable, neither it nor [valueOf] yields a
    primitive, and the conversion throws. *)
Fixpoint ToString (v : value) : Converted :=
  match v with
  | JUndefined => AsString (lit "undefined")
  | JNull => AsString (lit "null")
  | JBool true => AsString (lit "true")
  | JBool false => AsString (lit "false")
  | JNum x => AsString (NumberToString x)
  | JStr s => AsString s
  | JArr elems =>
      (fix join (l : list value) : Converted :=
         match l with
         | [] => AsString []
         | x :: rest =>
             match (if nullish x then AsString [] else ToString x) with
             | CannotConvert culprit => CannotConvert culprit
             | AsString sx =>
                 match rest with
                 | [] => AsString sx
                 | _ :: _ =>
                     match join rest with
                     | CannotConvert culprit => CannotConvert culprit
                     | AsString sr => AsString (sx ++ lit "," ++ sr)
                     end
                 end
             end
         end) elems
  | JObj props =>
      if has_own (lit "toString") props then CannotConvert v
      else AsString (lit "[object Object]")
  end.

(* ------------------------------------------------------------------ *)
(** * The map view ([MapView], [MapUpdater])

    [MapView] receives the props [center] (a [MapCenter], [null] or
    [undefined]) and [places] (an array or [undefined]).  Neither is
    validated before it arrives: [HomeClient] hands over what the agent
    sent, so the elements of [places] and the fields of [center] are
    arbitrary values. *)

(** The fallback coordinate, written [41.0082, 28.9784] both in the
    [center] prop of the map container and in the position of the default
    marker; the specification calls it DEFAULT_CENTER. *)
Definition DEFAULT_CENTER : value * value :=
  (JNum 41.0082, JNum 28.9784).

(** [[center?.lat || 41.0082, center?.lon || 28.9784]] *)
Definition viewCenter (center : value) : value * value :=
  (js_or (optchain center (lit "lat")) (JNum 41.0082),
   js_or (optchain center (lit "lon")) (JNum 28.9784)).

(** A call [map.setView([lat, lon], zoom, { animate: true })]. *)
Record SetView : Type := mkSetView {
  sv_lat : value;
  sv_lon : value;
  sv_zoom : N
}.

(** The effect of [MapUpdater], run when [center] changes: the view is
    moved only when [center?.lat && center?.lon] holds. *)
Definition MapUpdater (center : value) : option SetView :=
  if truthy (js_and (optchain center (lit "lat")) (optchain center (lit "lon")))
  then Some (mkSetView (get center (lit "lat")) (get center (lit "lon")) 13)
  else None.

(** The callback of the filter,
    [typeof p.lat === "number" && typeof p.lon === "number"];
    reading a property of a [null] element throws. *)
Definition renderable (p : value) : option bool :=
  match get_checked p (lit "lat") with
  | None => None
  | Some lat =>
      if is_number lat
      then match get_checked p (lit "lon") with
           | None => None
           | Some lon => Some (is_number lon)
           end
      else Some false
  end.

(** [Array.prototype.filter] with a callback that may throw. *)
Fixpoint filter_throwing (f : value -> option bool) (l : list value)
  : option (list value) :=
  match l with
  | [] => Some []
  | p :: rest =>
      match f p with
      | None => None
      | Some keep =>
          match filter_throwing f rest with
          | None => None
          | Some kept => Some (if keep then p :: kept else kept)
          end
      end
  end.

(** [(places || []).filter(...)]; the prop is an array or [undefined]. *)
Definition markers (places : option (list value)) : option (list value) :=
  filter_throwing renderable
    match places with
    | Some l => l
    | None => []
    end.

(** What a [Popup] shows: the name of a place with its address when the
    address is truthy, or a fixed text. *)
Inductive Popup : Type :=
| PlacePopup (name : value) (address : option value)
| TextPopup (text : jsstring).

(** A rendered [Marker]: its position and its popup.  The shared icon is
    left out; the React keys of the markers are kept beside them, in the
    container. *)
Record MarkerEl : Type := mkMarker {
  mk_position : value * value;
  mk_popup : Popup
}.

Definition place_marker (place : value) : MarkerEl :=
  mkMarker (get place (lit "lat"), get place (lit "lon"))
    (PlacePopup (get place (lit "name"))
       (if truthy (get place (lit "address"))
        then Some (get place (lit "address"))
        else None)).

Definition default_marker : MarkerEl :=
  mkMarker (JNum 41.0082, JNum 28.9784) (TextPopup (lit "İstanbul merkez")).

(** The keys [label-idx] of a list rendered with [map((x, idx) => ...)],
    [idx] counting from [idx0]. *)
Fixpoint keys_from (idx0 : N) (labels : list jsstring) : list jsstring :=
  match labels with
  | [] => []
  | l :: rest =>
      (l ++ lit "-" ++ decimal idx0) :: keys_from (N.succ idx0) rest
  end.

(** The names of the markers as the template literal of their key
    converts them; [None] when a conversion throws. *)
Fixpoint marker_labels (ms : list value) : option (list jsstring) :=
  match ms with
  | [] => Some []
  | place :: rest =>
      match ToString (get place (lit "name")) with
      | CannotConvert _ => None
      | AsString name =>
          match marker_labels rest with
          | None => None
          | Some names => Some (name :: names)
          end
      end
  end.

(** The keys of the markers, [`${place.name}-${idx}`]. *)
Definition marker_keys (ms : list value) : option (list jsstring) :=
  option_map (keys_from 0) (marker_labels ms).

(** The [MapContainer] element with the markers inside it and, in the
    same order, the keys of the markers (the default marker has none). *)
Record MapContainer : Type := mkMapContainer {
  mc_center : value * value;
  mc_zoom : N;
  mc_updater : option SetView;
  mc_markers : list MarkerEl;
  mc_keys : list jsstring
}.

Inductive MapShell : Type :=
| MapSkeleton
| MapMounted (m : MapContainer).

(** One render of [MapView]; [mounted] is the component's own flag, false
    on the first pass.  [None] is an exception thrown while rendering:
    by the filter, or by the conversion of a name in the key of a marker.
    The remount key, derived from the clock, is left out; so is what React
    and the map library do with the elements once they are returned. *)
Definition MapView (mounted : bool) (center : value)
    (places : option (list value)) : option MapShell :=
  match markers places with
  | None => None
  | Some ms =>
      if negb mounted then Some MapSkeleton
      else if Nat.ltb 0 (List.length ms) then
        match marker_keys ms with
        | None => None
        | Some keys =>
            Some (MapMounted
                    (mkMapContainer (viewCenter center) 12 (MapUpdater center)
                       (map place_marker ms) keys))
        end
      else
        Some (MapMounted
                (mkMapContainer (viewCenter center) 12 (MapUpdater center)
                   [default_marker] []))
  end.

(* ------------------------------------------------------------------ *)
(** * The page ([HomeClient]): data *)

Inductive Lang : Type := tr | en.

Definition Lang_eqb (a b : Lang) : bool :=
  match a, b with
  | tr, tr | en, en => true
  | _, _ => false
  end.

(** The entries of the localisation table that reach the state: the three
    messages of the scripted exchange.  The other entries are labels of
    the page. *)
Record Copy : Type := mkCopy {
  chatAgent1 : jsstring;
  chatUser : jsstring;
  chatAgent2 : jsstring
}.

Definition COPY (l : Lang) : Copy :=
  match l with
  | tr =>
      mkCopy
        (lit "Merhaba! Sana en iyi mekanları bulabilirim. Nerede arayalım?")
        (lit "Kadıköy’de sakin kahveciler.")
        (lit "Haritada işaretledim. İstersen fiyat aralığı da ekleyebilirim.")
  | en =>
      mkCopy
        (lit "Hi! I can find the best spots for you. Where should we look?")
        (lit "Quiet coffee places in Kadıköy.")
        (lit "I pinned them on the map. Want to add a price range?")
  end.

Inductive Role : Type := user | agent.

(** [text] is a string by its annotation; the agent's reply is stored as
    received, so it is a value here. *)
Record ChatMessage : Type := mkChatMessage {
  role : Role;
  text : value
}.

Inductive Status : Type := StatusIdle | StatusThinking | StatusError.

(** The state hooks of [HomeClient].  [modelOpen] and [modelQuery], the
    open flag and the search box of the model drop-down, are left out: no
    operation below reads them. *)
Record State : Type := mkState {
  lang : Lang;
  hasInteracted : bool;
  messages : list ChatMessage;
  input : jsstring;
  modelName : value;
  modelOptions : list value;
  modelsLoading : bool;
  modelsError : option jsstring;
  mapCenter : value;
  mapPlaces : list value;
  status : Status;
  error : option jsstring
}.

(** The initial values given to [useState]. *)
Definition initialState : State :=
  mkState en false [] [] (JStr (lit "openai/gpt-4o-mini")) [] false None
    JNull [] StatusIdle None.

(** The state setters.  [setMessages] takes an updater, as the source
    calls it with [(prev) => ...]. *)
Definition setLang (v : Lang) (s : State) : State :=
  mkState v (hasInteracted s) (messages s) (input s) (modelName s)
    (modelOptions s) (modelsLoading s) (modelsError s) (mapCenter s)
    (mapPlaces s) (status s) (error s).

Definition setHasInteracted (v : bool) (s : State) : State :=
  mkState (lang s) v (messages s) (input s) (modelName s)
    (modelOptions s) (modelsLoading s) (modelsError s) (mapCenter s)
    (mapPlaces s) (status s) (error s).

Definition setMessages (f : list ChatMessage -> list ChatMessage)
    (s : State) : State :=
  mkState (lang s) (hasInteracted s) (f (messages s)) (input s) (modelName s)
    (modelOptions s) (modelsLoading s) (modelsError s) (mapCenter s)
    (mapPlaces s) (status s) (error s).

Definition setInput (v : jsstring) (s : State) : State :=
  mkState (lang s) (hasInteracted s) (messages s) v (modelName s)
    (modelOptions s) (modelsLoading s) (modelsError s) (mapCenter s)
    (mapPlaces s) (status s) (error s).

Definition setModelName (v : value) (s : State) : State :=
  mkState (lang s) (hasInteracted s) (messages s) (input s) v
    (modelOptions s) (modelsLoading s) (modelsError s) (mapCenter s)
    (mapPlaces s) (status s) (error s).

Definition setModelOptions (v : list value) (s : State) : State :=
  mkState (lang s) (hasInteracted s) (messages s) (input s) (modelName s)
    v (modelsLoading s) (modelsError s) (mapCenter s)
    (mapPlaces s) (status s) (error s).

Definition setModelsLoading (v : bool) (s : State) : State :=
  mkState (lang s) (hasInteracted s) (messages s) (input s) (modelName s)
    (modelOptions s) v (modelsError s) (mapCenter s)
    (mapPlaces s) (status s) (error s).

Definition setModelsError (v : option jsstring) (s : State) : State :=
  mkState (lang s) (hasInteracted s) (messages s) (input s) (modelName s)
    (modelOptions s) (modelsLoading s) v (mapCenter s)
    (mapPlaces s) (status s) (error s).

Definition setMapCenter (v : value) (s : State) : State :=
  mkState (lang s) (hasInteracted s) (messages s) (input s) (modelName s)
    (modelOptions s) (modelsLoading s) (modelsError s) v
    (mapPlaces s) (status s) (error s).

Definition setMapPlaces (v : list value) (s : State) : State :=
  mkState (lang s) (hasInteracted s) (messages s) (input s) (modelName s)
    (modelOptions s) (modelsLoading s) (modelsError s) (mapCenter s)
    v (status s) (error s).

Definition setStatus (v : Status) (s : State) : State :=
  mkState (lang s) (hasInteracted s) (messages s) (input s) (modelName s)
    (modelOptions s) (modelsLoading s) (modelsError s) (mapCenter s)
    (mapPlaces s) v (error s).

Definition setError (v : option jsstring) (s : State) : State :=
  mkState (lang s) (hasInteracted s) (messages s) (input s) (modelName s)
    (modelOptions s) (modelsLoading s) (modelsError s) (mapCenter s)
    (mapPlaces s) (status s) v.

(** The scripted exchange the seeding effect writes. *)
Definition seedTranscript (l : Lang) : list ChatMessage :=
  [ mkChatMessage agent (JStr (chatAgent1 (COPY l)));
    mkChatMessage user (JStr (chatUser (COPY l)));
    mkChatMessage agent (JStr (chatAgent2 (COPY l))) ].

(** The effect with dependencies [[t, hasInteracted]]: it returns early
    once the user has interacted, and otherwise replaces the transcript. *)
Definition seedEffect (s : State) : State :=
  if hasInteracted s then s
  else setMessages (fun _ => seedTranscript (lang s)) s.

(** What a [catch] clause receives: an [Error] instance with its message,
    or some other thrown value. *)
Inductive Thrown : Type :=
| ErrorObject (message : jsstring)
| NotAnError.

(** [err instanceof Error ? err.message : fallback] *)
Definition message_or (fallback : jsstring) (err : Thrown) : jsstring :=
  match err with
  | ErrorObject m => m
  | NotAnError => fallback
  end.

(** How [await res.json()] ends: with the parsed value, or rejected. *)
Inductive Body : Type :=
| BodyJson (v : value)
| BodyMalformed (err : Thrown).

(** How [await fetch(...)] ends: rejected (no response reached the page),
    or with a response that has a status and a body. *)
Inductive FetchResult : Type :=
| FetchRejected (err : Thrown)
| FetchResponse (http_status : N) (body : Body).

(** [res.ok]: the status is in the range 200 to 299. *)
Definition ok (http_status : N) : bool :=
  ((200 <=? http_status) && (http_status <=? 299))%N.

(** The JSON body posted to [/agent/map]. *)
Record AgentRequest : Type := mkAgentRequest {
  prompt : jsstring;
  model_name : value
}.

(** How the [try] block of a handler ends. *)
Inductive TryResult : Type :=
| Returned (data : value)
| Threw (err : Thrown).

(* ------------------------------------------------------------------ *)
(** * The page ([HomeClient]): handlers *)

(** [throw new Error(v)], with [v] not [undefined]: what reaches the
    [catch] clause is the new [Error], whose message is [ToString(v)], or
    the [TypeError] that this conversion raises. *)
Definition newError (v : value) : Thrown :=
  match ToString v with
  | AsString s => ErrorObject s
  | CannotConvert culprit => ErrorObject (ToPrimitiveErrorMessage culprit)
  end.

(** ** [handleSubmit] *)

(** The synchronous part of [handleSubmit], up to the call of [fetch]:
    the new state and the request that is sent, if any. *)
Definition handleSubmit_begin (s : State) : State * option AgentRequest :=
  let p := trim (input s) in
  match p with
  | [] => (s, None)
  | _ :: _ =>
      (setMessages (fun prev => prev ++ [mkChatMessage user (JStr p)])
         (setStatus StatusThinking
            (setError None
               (setInput []
                  (setHasInteracted true s)))),
       Some (mkAgentRequest p (modelName s)))
  end.

(** [await res.json().catch(() => ({}))] *)
Definition error_payload (body : Body) : value :=
  match body with
  | BodyJson v => v
  | BodyMalformed _ => JObj []
  end.

(** The [try] block after [fetch] has settled, up to the point where
    [data] is available. *)
Definition agent_try (r : FetchResult) : TryResult :=
  match r with
  | FetchRejected err => Threw err
  | FetchResponse http_status body =>
      if ok http_status then
        match body with
        | BodyJson data => Returned data
        | BodyMalformed err => Threw err
        end
      else
        let payload := error_payload body in
        Threw (newError
                 (js_or (optchain payload (lit "detail"))
                    (JStr (lit "Request failed (" ++ decimal http_status
                             ++ lit ")"))))
  end.

(** The text of the agent's message, [data.response || "No response."]. *)
Definition agent_text (data : value) : value :=
  js_or (get data (lit "response")) (JStr (lit "No response.")).

(** The state updates of the success path. *)
Definition apply_response (data : value) (s : State) : State :=
  let s1 :=
    setMessages (fun prev => prev ++ [mkChatMessage agent (agent_text data)]) s in
  let c := get data (lit "center") in
  let s2 :=
    if truthy c && is_number (get c (lit "lat")) then setMapCenter c s1
    else s1 in
  let s3 :=
    match get data (lit "places") with
    | JArr l => setMapPlaces l s2
    | _ => s2
    end in
  setStatus StatusIdle s3.

(** The [catch] clause. *)
Definition agent_catch (err : Thrown) (s : State) : State :=
  setError (Some (message_or (lit "Unknown error") err))
    (setStatus StatusError s).

(** The rest of [handleSubmit], run on the state the page has when the
    call settles.  A body that parses to [null] gives no state: the
    updater passed to [setMessages] reads [data.response] when React
    runs it, and the [TypeError] it raises there escapes the handler's
    [try] and ends the render. *)
Definition handleSubmit_resolve (r : FetchResult) (s : State)
  : option State :=
  match agent_try r with
  | Threw err => Some (agent_catch err s)
  | Returned data =>
      if nullish data then None else Some (apply_response data s)
  end.

(** ** [loadModels] *)

Definition loadModels_begin (s : State) : State :=
  setModelsError None (setModelsLoading true s).

(** The [try] block of [loadModels] after [fetch] has settled: the state
    it reached and the value it threw, if any. *)
Definition loadModels_try (isMounted : bool) (r : FetchResult) (s : State)
  : State * option Thrown :=
  match r with
  | FetchRejected err => (s, Some err)
  | FetchResponse http_status body =>
      if negb (ok http_status) then
        (s, Some (newError
                    (JStr (lit "Model list failed (" ++ decimal http_status
                             ++ lit ")"))))
      else
        match body with
        | BodyMalformed err => (s, Some err)
        | BodyJson data =>
            if isMounted then
              match get_checked data (lit "data") with
              | None => (s, Some (ErrorObject (TypeErrorMessage data (lit "data"))))
              | Some (JArr opts) =>
                  let s1 := setModelOptions opts s in
                  match opts with
                  | [] => (s1, None)
                  | first :: _ =>
                      match get_checked first (lit "id") with
                      | None =>
                          (s1, Some (ErrorObject
                                       (TypeErrorMessage first (lit "id"))))
                      | Some id => (setModelName id s1, None)
                      end
                  end
              | Some _ => (s, None)
              end
            else (s, None)
        end
  end.

(** [loadModels] from the settlement of [fetch] on: [try], [catch] and
    [finally].  [isMounted] is the flag the effect's clean-up clears. *)
Definition loadModels_resolve (isMounted : bool) (r : FetchResult)
    (s : State) : State :=
  let '(s1, thrown) := loadModels_try isMounted r s in
  let s2 :=
    match thrown with
    | None => s1
    | Some err =>
        if isMounted
        then setModelsError (Some (message_or (lit "Model list failed") err))
               (setModelOptions [] s1)
        else s1
    end in
  if isMounted then setModelsLoading false s2 else s2.

(** ** The page as a transition system *)

(** The page together with the calls that have been issued and have not
    settled yet. *)
Record World : Type := mkWorld {
  ui : State;
  inflight : list AgentRequest;
  registryPending : bool
}.

Inductive Event : Type :=
| ClickLang (l : Lang)
| TypeInput (s : jsstring)
| SelectModel (id : value)
| Submit
| AgentSettled (i : nat) (r : FetchResult)
| RegistrySettled (r : FetchResult).

(** The effects that run after a render: the seeding effect when [t]
    (that is, [lang]) or [hasInteracted] changed. *)
Definition run_effects (before after : State) : State :=
  if Lang_eqb (lang before) (lang after)
     && Bool.eqb (hasInteracted before) (hasInteracted after)
  then after
  else seedEffect after.

(** The first render: every effect runs once. *)
Definition mount : World :=
  mkWorld (loadModels_begin (seedEffect initialState)) [] true.

Fixpoint remove_nth {A : Type} (i : nat) (l : list A) : list A :=
  match l, i with
  | [], _ => []
  | _ :: rest, O => rest
  | x :: rest, S j => x :: remove_nth j rest
  end.

(** One event and the render that follows it.  [None]: the event cannot
    happen in this world (no such call is in flight), or the render
    throws. *)
Definition dispatch (e : Event) (w : World) : option World :=
  match e with
  | ClickLang l =>
      Some (mkWorld (run_effects (ui w) (setLang l (ui w)))
              (inflight w) (registryPending w))
  | TypeInput s =>
      Some (mkWorld (setInput s (ui w)) (inflight w) (registryPending w))
  | SelectModel id =>
      Some (mkWorld (setModelName id (ui w)) (inflight w) (registryPending w))
  | Submit =>
      let '(s', req) := handleSubmit_begin (ui w) in
      Some (mkWorld (run_effects (ui w) s')
              (inflight w ++ match req with
                             | Some q => [q]
                             | None => []
                             end)
              (registryPending w))
  | AgentSettled i r =>
      match nth_error (inflight w) i with
      | None => None
      | Some _ =>
          match handleSubmit_resolve r (ui w) with
          | None => None
          | Some s' =>
              Some (mkWorld (run_effects (ui w) s')
                      (remove_nth i (inflight w)) (registryPending w))
          end
      end
  | RegistrySettled r =>
      if registryPending w
      then Some (mkWorld (loadModels_resolve true r (ui w)) (inflight w) false)
      else None
  end.

Fixpoint run (es : list Event) (w : World) : option World :=
  match es with
  | [] => Some w
  | e :: rest =>
      match dispatch e w with
      | None => None
      | Some w' => run rest w'
      end
  end.

(** The worlds the page can be in. *)
Inductive reachable : World -> Prop :=
| reachable_mount : reachable mount
| reachable_step (e : Event) (w w' : World) :
    reachable w -> dispatch e w = Some w' -> reachable w'.

(* ------------------------------------------------------------------ *)
(** * The specification's wording, where it is compared with the code *)

(** The text of the agent's message as the specification words it: the
    [response] field, or the literal when the field is absent. *)
Definition stated_agent_text (data : value) : value :=
  match get data (lit "response") with
  | JUndefined => JStr (lit "No response.")
  | v => v
  end.

(** The stored error message as the specification words it: the
    [detail] field if the server supplied one, else a message made from
    the status code, else the generic message. *)
Definition stated_error_message (r : FetchResult) : jsstring :=
  match r with
  | FetchResponse http_status body =>
      let from_status :=
        lit "Request failed (" ++ decimal http_status ++ lit ")" in
      match body with
      | BodyJson payload =>
          match optchain payload (lit "detail") with
          | JUndefined => from_status
          | d =>
              match ToString d with
              | AsString text => text
              | CannotConvert culprit => ToPrimitiveErrorMessage culprit
              end
          end
      | BodyMalformed _ => from_status
      end
  | FetchRejected _ => lit "Unknown error"
  end.

(** A centre is valid, in the specification's words, when both [lat] and
    [lon] are present and numeric. *)
Definition valid_center (center : value) : bool :=
  is_number (optchain center (lit "lat"))
  && is_number (optchain center (lit "lon")).

(** [viewCenter = center if valid else DEFAULT_CENTER]. *)
Definition stated_viewCenter (center : value) : value * value :=
  if valid_center center
  then (get center (lit "lat"), get center (lit "lon"))
  else DEFAULT_CENTER.

(** A call of the agent has failed when [fetch] was rejected, the status
    is not in the 2xx range, or the body of a 2xx response does not
    parse. *)
Definition agent_call_failed (r : FetchResult) : bool :=
  match r with
  | FetchRejected _ => true
  | FetchResponse http_status body =>
      if ok http_status
      then match body with
           | BodyJson _ => false
           | BodyMalformed _ => true
           end
      else true
  end.

(** A registry fetch has failed when [fetch] was rejected or the status
    is not in the 2xx range. *)
Definition registry_fetch_failed (r : FetchResult) : bool :=
  match r with
  | FetchRejected _ => true
  | FetchResponse http_status _ => negb (ok http_status)
  end.

(** A coordinate the view can use as it is: a number other than zero and
    NaN.  A coordinate is absent when it is [undefined] or [null]. *)
Definition nonzero_number (v : value) : bool := is_number v && truthy v.

(** The centre of a response is applied when it has a numeric [lat]. *)
Definition has_numeric_lat (center : value) : bool :=
  is_number (optchain center (lit "lat")).

(* ------------------------------------------------------------------ *)
(** * Concrete inputs used in the examples *)

Definition sample_placeA : value :=
  JObj [(lit "name", JStr (lit "A"));
        (lit "lat", JNum 41.05); (lit "lon", JNum 29.00)].

Definition sample_placeB : value :=
  JObj [(lit "name", JStr (lit "B"));
        (lit "lat", JNull); (lit "lon", JNull)].

Definition sample_places_AB : list value := [sample_placeA; sample_placeB].

Definition sample_center_AB : value :=
  JObj [(lit "lat", JNum 41.05); (lit "lon", JNum 29.00)].

(** A centre that passes the page's check (a numeric [lat]) and has no
    [lon]. *)
Definition sample_center_lat_only : value :=
  JObj [(lit "lat", JNum 41.05)].

Definition sample_response_AB : value :=
  JObj [(lit "response", JStr (lit "Two places."));
        (lit "center", sample_center_AB);
        (lit "places", JArr sample_places_AB)].

Definition sample_response_empty_text : value :=
  JObj [(lit "response", JStr [])].

Definition sample_center_1 : value :=
  JObj [(lit "lat", JNum 1); (lit "lon", JNum 1)].

Definition sample_center_2 : value :=
  JObj [(lit "lat", JNum 2); (lit "lon", JNum 2)].

Definition sample_response_1 : value :=
  JObj [(lit "response", JStr (lit "one"));
        (lit "center", sample_center_1);
        (lit "places", JArr [])].

Definition sample_response_2 : value :=
  JObj [(lit "response", JStr (lit "two"));
        (lit "center", sample_center_2);
        (lit "places", JArr [sample_placeA])].

(** The page after the first render, with a prompt typed in. *)
Definition sample_typed_cafes : State :=
  setInput (lit " cafes ") (ui mount).

Definition sample_network_down : FetchResult :=
  FetchRejected (ErrorObject (lit "Failed to fetch")).

Definition sample_server_error_empty_detail : FetchResult :=
  FetchResponse 500 (BodyJson (JObj [(lit "detail", JStr [])])).

Definition sample_server_error_with_detail : FetchResult :=
  FetchResponse 502
    (BodyJson (JObj [(lit "detail", JStr (lit "Agent error"))])).

(** Call 1 and call 2 are issued in this order; call 2 settles first. *)
Definition sample_overtaking : list Event :=
  [TypeInput (lit "cafes"); Submit; TypeInput (lit "parks"); Submit;
   AgentSettled 1 (FetchResponse 200 (BodyJson sample_response_2));
   AgentSettled 0 (FetchResponse 200 (BodyJson sample_response_1))].

(** A registry answer with two models, and one whose list starts with
    [null]. *)
Definition sample_registry_body : value :=
  JObj [(lit "data",
         JArr [JObj [(lit "id", JStr (lit "m/one"));
                     (lit "name", JStr (lit "One"))];
               JObj [(lit "id", JStr (lit "m/two"));
                     (lit "name", JStr (lit "Two"))]])].

Definition sample_registry_null_first : value :=
  JObj [(lit "data", JArr [JNull])].

(** The page after the prompt " cafes " was submitted, its call in
    flight. *)
Definition sample_cafes_in_flight : World :=
  mkWorld (fst (handleSubmit_begin sample_typed_cafes))
    [mkAgentRequest (lit "cafes") (JStr (lit "openai/gpt-4o-mini"))] true.

(** Engine functions for the examples, none of which prints a number or
    reads a property of [null]; the message for a failed conversion is the
    one V8 gives. *)
Definition sample_NumberToString : float -> jsstring := fun _ => [].

Definition sample_TypeErrorMessage : value -> jsstring -> jsstring :=
  fun _ _ => [].

Definition sample_ToPrimitiveErrorMessage : value -> jsstring :=
  fun _ => lit "Cannot convert object to primitive value".

(** A place that passes the filter and whose name is an object with an
    own property [toString]. *)
Definition sample_place_bad_name : value :=
  JObj [(lit "name", JObj [(lit "toString", JNum 1)]);
        (lit "lat", JNum 1); (lit "lon", JNum 2)].

(* ------------------------------------------------------------------ *)
(** * The page's map and the keys of the rendered lists *)

(** [MapClient] loads [MapView] on the client and hands its two props
    over; [mounted] is the flag [MapView] keeps. *)
Definition MapClient (mounted : bool) (center : value)
    (places : option (list value)) : option MapShell :=
  MapView mounted center places.

(** [<MapClient center={mapCenter} places={mapPlaces} />] *)
Definition page_map (mounted : bool) (s : State) : option MapShell :=
  MapClient mounted (mapCenter s) (Some (mapPlaces s)).

Definition role_name (r : Role) : jsstring :=
  match r with
  | user => lit "user"
  | agent => lit "agent"
  end.

(** The keys of the chat bubbles, [`${message.role}-${idx}`]. *)
Definition message_keys (msgs : list ChatMessage) : list jsstring :=
  keys_from 0 (map (fun m => role_name (role m)) msgs).

(* ------------------------------------------------------------------ *)
(** * Facts about the JavaScript primitives *)

Lemma trimStart_blank (s : jsstring) :
  forallb is_whitespace s = true -> trimStart s = [].
Proof.
  induction s as [|c s IH]; simpl; [reflexivity|].
  intros H. apply andb_true_iff in H. destruct H as [Hc Hs].
  rewrite Hc. exact (IH Hs).
Qed.

Lemma trim_blank (s : jsstring) :
  forallb is_whitespace s = true -> trim s = [].
Proof.
  intros H. unfold trim, trimEnd. rewrite (trimStart_blank s H). reflexivity.
Qed.

Lemma truthy_not_nullish (v : value) : truthy v = true -> nullish v = false.
Proof. destruct v; simpl; intros H; congruence. Qed.

Lemma optchain_get (v : value) (k : jsstring) :
  nullish v = false -> optchain v k = get v k.
Proof. unfold optchain. intros ->. reflexivity. Qed.

Lemma optchain_nullish (v : value) (k : jsstring) :
  nullish v = true -> optchain v k = JUndefined.
Proof. unfold optchain. intros ->. reflexivity. Qed.

(** A property that is not [undefined] belongs to a value that is neither
    [null] nor [undefined]. *)
Lemma optchain_defined (v : value) (k : jsstring) :
  nullish (optchain v k) = false -> optchain v k = get v k.
Proof.
  unfold optchain. destruct (nullish v); simpl; [discriminate | reflexivity].
Qed.

Lemma JNum_neq (x y : float) :
  PrimFloat.eqb x y = false -> PrimFloat.eqb x x = true -> JNum x <> JNum y.
Proof.
  intros Hxy Hxx E. injection E as E. rewrite <- E in Hxy. congruence.
Qed.

(* ------------------------------------------------------------------ *)
(** * The map view *)

Lemma renderable_spec (p : value) :
  renderable p =
  if nullish p then None
  else Some (is_number (get p (lit "lat")) && is_number (get p (lit "lon"))).
Proof.
  unfold renderable, get_checked.
  destruct (nullish p); [reflexivity|].
  destruct (is_number (get p (lit "lat"))); reflexivity.
Qed.

Lemma filter_throwing_renderable (places : list value) :
  Forall (fun p => nullish p = false) places ->
  filter_throwing renderable places =
  Some (filter (fun p => is_number (get p (lit "lat"))
                         && is_number (get p (lit "lon"))) places).
Proof.
  induction 1 as [|p rest Hp _ IH]; [reflexivity|].
  cbn [filter_throwing filter]. rewrite renderable_spec, Hp, IH.
  destruct (is_number (get p (lit "lat")) && is_number (get p (lit "lon")));
    reflexivity.
Qed.

(** An element that is [null] makes the filter throw. *)
Lemma filter_throwing_null (places : list value) :
  Exists (fun p => nullish p = true) places ->
  filter_throwing renderable places = None.
Proof.
  induction 1 as [p rest Hp | p rest _ IH]; cbn [filter_throwing].
  - rewrite renderable_spec, Hp. reflexivity.
  - rewrite IH. destruct (renderable p); reflexivity.
Qed.

(** C3.  For every list of places (objects, that is, values other than
    [null]), the marker list is the sub-list of the places whose [lat] and
    [lon] are both numbers, in their order. *)
Theorem C3_markers_filter_numeric_coordinates (places : list value) :
  Forall (fun p => nullish p = false) places ->
  markers (Some places) =
  Some (filter (fun p => is_number (get p (lit "lat"))
                         && is_number (get p (lit "lon"))) places).
Proof. intros H. unfold markers. exact (filter_throwing_renderable places H). Qed.

(** C7.  When the marker list is empty the mounted map shows exactly one
    marker, the default one, placed at DEFAULT_CENTER with the fixed label;
    whenever a mounted map is rendered, its list of markers is not empty;
    and an empty list of places gives exactly the default marker.  (Before
    the component is mounted no map is rendered at all, only the
    placeholder.) *)
Theorem C7_default_marker_when_no_markers
    (center : value) (places : option (list value)) (ms : list value) :
  markers places = Some ms ->
  (ms = [] ->
   MapView true center places =
   Some (MapMounted
           (mkMapContainer (viewCenter center) 12 (MapUpdater center)
              [default_marker] [])))
  /\ (forall m, MapView true center places = Some (MapMounted m) ->
      mc_markers m <> []
      /\ (ms = [] -> mc_markers m = [default_marker]))
  /\ MapView true center (Some []) =
     Some (MapMounted
             (mkMapContainer (viewCenter center) 12 (MapUpdater center)
                [default_marker] []))
  /\ mk_position default_marker = DEFAULT_CENTER
  /\ mk_popup default_marker = TextPopup (lit "İstanbul merkez")
  /\ MapView false center places = Some MapSkeleton.
Proof.
  intros Hms.
  split; [|split; [|split; [reflexivity|split; [reflexivity|split;
    [reflexivity|]]]]].
  - intros ->. unfold MapView. rewrite Hms. reflexivity.
  - intros m. unfold MapView. rewrite Hms. cbn [negb].
    destruct ms as [|p rest]; cbn [List.length Nat.ltb Nat.leb].
    + intros E. injection E as <-. cbn [mc_markers].
      split; [discriminate | reflexivity].
    + destruct (marker_keys (p :: rest)); [|discriminate].
      intros E. injection E as <-. cbn [mc_markers map].
      split; discriminate.
  - unfold MapView. rewrite Hms. reflexivity.
Qed.

(** C4, as amended.  The two components of the view centre fall back
    separately.  With [lat] and [lon] both numbers other than zero and NaN
    the view centre is the supplied centre and [MapUpdater] moves the view
    there; with both absent (or no centre at all) it is DEFAULT_CENTER;
    with one of them a usable number and the other absent, the view centre
    takes the usable component from the supplied centre and the other from
    DEFAULT_CENTER, and [MapUpdater] does not move the view. *)
Theorem C4_viewCenter_falls_back_by_component (center : value) :
  let lat := optchain center (lit "lat") in
  let lon := optchain center (lit "lon") in
  (nonzero_number lat = true -> nonzero_number lon = true ->
   viewCenter center = (lat, lon)
   /\ MapUpdater center = Some (mkSetView lat lon 13))
  /\ (nullish lat = true -> nullish lon = true ->
      viewCenter center = DEFAULT_CENTER /\ MapUpdater center = None)
  /\ (nonzero_number lat = true -> nullish lon = true ->
      viewCenter center = (lat, snd DEFAULT_CENTER)
      /\ MapUpdater center = None)
  /\ (nullish lat = true -> nonzero_number lon = true ->
      viewCenter center = (fst DEFAULT_CENTER, lon)
      /\ MapUpdater center = None)
  /\ (nullish center = true -> viewCenter center = DEFAULT_CENTER).
Proof.
  intros lat lon.
  assert (Hnz : forall v, nonzero_number v = true -> truthy v = true).
  { intros v H. apply andb_true_iff in H. destruct H as [_ H]. exact H. }
  assert (Hnull : forall v, nullish v = true -> truthy v = false).
  { intros [] H; simpl in *; congruence. }
  unfold viewCenter, MapUpdater, js_or, js_and. fold lat lon.
  split; [|split; [|split; [|split]]].
  - intros H1 H2.
    pose proof (Hnz _ H1) as T1. pose proof (Hnz _ H2) as T2.
    rewrite ?T1, ?T2. cbv iota. rewrite ?T1, ?T2.
    split; [reflexivity|].
    assert (nullish lat = false) as Hl by (apply truthy_not_nullish; auto).
    assert (nullish lon = false) as Hl' by (apply truthy_not_nullish; auto).
    unfold lat in Hl. unfold lon in Hl'.
    rewrite <- (optchain_defined _ _ Hl), <- (optchain_defined _ _ Hl').
    reflexivity.
  - intros H1 H2.
    pose proof (Hnull _ H1) as T1. pose proof (Hnull _ H2) as T2.
    rewrite ?T1, ?T2. cbv iota. rewrite ?T1, ?T2. split; reflexivity.
  - intros H1 H2.
    pose proof (Hnz _ H1) as T1. pose proof (Hnull _ H2) as T2.
    rewrite ?T1, ?T2. cbv iota. rewrite ?T1, ?T2. split; reflexivity.
  - intros H1 H2.
    pose proof (Hnull _ H1) as T1. pose proof (Hnz _ H2) as T2.
    rewrite ?T1, ?T2. cbv iota. rewrite ?T1, ?T2. split; reflexivity.
  - intros H. unfold lat, lon. rewrite !(optchain_nullish _ _ H). reflexivity.
Qed.

(* ------------------------------------------------------------------ *)
(** * [handleSubmit] *)

Lemma has_numeric_lat_guard (c : value) :
  truthy c && is_number (get c (lit "lat")) = has_numeric_lat c.
Proof.
  unfold has_numeric_lat, optchain.
  destruct c; simpl; rewrite ?andb_false_r; reflexivity.
Qed.

Lemma agent_text_nonempty (data : value) (t : jsstring) :
  get data (lit "response") = JStr t -> t <> [] -> agent_text data = JStr t.
Proof.
  unfold agent_text, js_or. intros -> Ht. destruct t; [congruence | reflexivity].
Qed.

Lemma agent_text_fallback (data : value) :
  nullish (get data (lit "response")) = true
  \/ get data (lit "response") = JStr [] ->
  agent_text data = JStr (lit "No response.").
Proof.
  unfold agent_text, js_or. intros [H | ->]; [|reflexivity].
  destruct (get data (lit "response")); simpl in H; try discriminate;
    reflexivity.
Qed.

Lemma handleSubmit_begin_nonblank (s : State) :
  trim (input s) <> [] ->
  handleSubmit_begin s =
  (setMessages (fun prev => prev ++ [mkChatMessage user (JStr (trim (input s)))])
     (setStatus StatusThinking
        (setError None (setInput [] (setHasInteracted true s)))),
   Some (mkAgentRequest (trim (input s)) (modelName s))).
Proof.
  unfold handleSubmit_begin. destruct (trim (input s)); [congruence | reflexivity].
Qed.

Lemma agent_try_failed (r : FetchResult) :
  agent_call_failed r = true -> exists err, agent_try r = Threw err.
Proof.
  destruct r as [err | st body]; simpl.
  - eauto.
  - destruct (ok st); [destruct body; [discriminate | eauto] | eauto].
Qed.

(** C1, as amended.  For every successful response (a 2xx status and a
    body that parses to a value other than [null]) the handler appends
    exactly one agent message, whose text is the [response] field when that
    is a non-empty string and the literal "No response." when the field is
    absent, [null] or the empty string; it replaces the map centre exactly
    when [center] has a numeric [lat]; it replaces the place list exactly
    when [places] is an array, the empty array included; it sets the status
    to idle; and it changes nothing else. *)
Theorem C1_success_appends_reply_and_updates_map
    (http_status : N) (data : value) (s : State) :
  ok http_status = true ->
  nullish data = false ->
  exists s',
    handleSubmit_resolve (FetchResponse http_status (BodyJson data)) s = Some s'
    /\ messages s' = messages s ++ [mkChatMessage agent (agent_text data)]
    /\ (forall t, get data (lit "response") = JStr t -> t <> [] ->
        agent_text data = JStr t)
    /\ (nullish (get data (lit "response")) = true
        \/ get data (lit "response") = JStr [] ->
        agent_text data = JStr (lit "No response."))
    /\ (has_numeric_lat (get data (lit "center")) = true ->
        mapCenter s' = get data (lit "center"))
    /\ (has_numeric_lat (get data (lit "center")) = false ->
        mapCenter s' = mapCenter s)
    /\ (forall l, get data (lit "places") = JArr l -> mapPlaces s' = l)
    /\ (isArray (get data (lit "places")) = false ->
        mapPlaces s' = mapPlaces s)
    /\ status s' = StatusIdle
    /\ (lang s', hasInteracted s', input s', error s')
       = (lang s, hasInteracted s, input s, error s)
    /\ (modelName s', modelOptions s', modelsLoading s', modelsError s')
       = (modelName s, modelOptions s, modelsLoading s, modelsError s).
Proof.
  intros Hok Hdata.
  unfold handleSubmit_resolve, agent_try. rewrite Hok, Hdata.
  eexists. split; [reflexivity|].
  unfold apply_response. rewrite has_numeric_lat_guard.
  split; [|split; [|split; [|split; [|split; [|split; [|split; [|split; [|split]]]]]]]].
  - destruct (has_numeric_lat _), (get data (lit "places")); reflexivity.
  - apply agent_text_nonempty.
  - apply agent_text_fallback.
  - intros ->. destruct (get data (lit "places")); reflexivity.
  - intros ->. destruct (get data (lit "places")); reflexivity.
  - intros l ->. destruct (has_numeric_lat _); reflexivity.
  - intros H. destruct (has_numeric_lat _), (get data (lit "places"));
      try reflexivity; discriminate.
  - destruct (has_numeric_lat _), (get data (lit "places")); reflexivity.
  - destruct (has_numeric_lat _), (get data (lit "places")); reflexivity.
  - destruct (has_numeric_lat _), (get data (lit "places")); reflexivity.
Qed.

(** C2, as amended.  For every failed call the handler sets the status to
    error and stores one message: after a non-2xx status, the [detail]
    field of the body turned into a string when the field is truthy (a
    non-empty string is stored as it is; when the conversion itself
    throws, as for an object with an own property [toString], the message
    of that [TypeError] is stored), otherwise "Request failed (<status>)";
    after a rejected [fetch] or an unparsable body of a 2xx response, the
    message of the [Error] that was thrown, or "Unknown error" when the
    thrown value is not an [Error].  The transcript, the map centre and
    the place list are not changed. *)
Theorem C2_failure_stores_message (r : FetchResult) (s : State) :
  agent_call_failed r = true ->
  exists msg s',
    handleSubmit_resolve r s = Some s'
    /\ status s' = StatusError
    /\ error s' = Some msg
    /\ (forall err, r = FetchRejected err ->
        msg = message_or (lit "Unknown error") err)
    /\ (forall st err, r = FetchResponse st (BodyMalformed err) ->
        ok st = true -> msg = message_or (lit "Unknown error") err)
    /\ (forall st body, r = FetchResponse st body -> ok st = false ->
        let detail := optchain (error_payload body) (lit "detail") in
        (truthy detail = true ->
         msg = match ToString detail with
               | AsString text => text
               | CannotConvert culprit => ToPrimitiveErrorMessage culprit
               end)
        /\ (forall d, detail = JStr d -> d <> [] -> msg = d)
        /\ (truthy detail = false ->
            msg = lit "Request failed (" ++ decimal st ++ lit ")"))
    /\ messages s' = messages s
    /\ mapCenter s' = mapCenter s
    /\ mapPlaces s' = mapPlaces s.
Proof.
  intros Hfail. unfold handleSubmit_resolve.
  destruct r as [err | st body]; simpl in *.
  - do 2 eexists. split; [reflexivity|].
    repeat split; try congruence; try discriminate.
  - destruct (ok st) eqn:Hok.
    + destruct body as [v | err]; [discriminate|].
      do 2 eexists. split; [reflexivity|].
      repeat split; try congruence; try discriminate.
    + do 2 eexists. split; [reflexivity|].
      split; [reflexivity|]. split; [reflexivity|].
      split; [discriminate|].
      split; [intros st' err E Hok'; injection E as -> _; congruence|].
      split; [|repeat split].
      intros st' body' E Hok'. injection E as -> ->. cbv zeta.
      unfold js_or.
      split; [|split].
      * intros ->. unfold newError.
        destruct (ToString _); reflexivity.
      * intros d -> Hd. destruct d; [congruence | reflexivity].
      * intros ->. reflexivity.
Qed.

(** C5.  When the input is empty after trimming, submitting does nothing:
    the handler returns the state it was given and sends no request, and
    the page after the event is the page before it (no call is added to
    those in flight). *)
Theorem C5_blank_prompt_is_ignored (w : World) :
  trim (input (ui w)) = [] ->
  handleSubmit_begin (ui w) = (ui w, None)
  /\ dispatch Submit w = Some w.
Proof.
  intros H.
  assert (Hb : handleSubmit_begin (ui w) = (ui w, None)).
  { unfold handleSubmit_begin. rewrite H. reflexivity. }
  split; [exact Hb|].
  unfold dispatch. rewrite Hb. unfold run_effects.
  destruct w as [s fl rp]; cbn [ui inflight registryPending].
  rewrite app_nil_r.
  destruct (lang s), (hasInteracted s); reflexivity.
Qed.

(** C10.  For a prompt that is not empty after trimming, the handler
    empties the input before the request is sent; a failure of the call
    does not restore it: the input is still empty afterwards, and the
    transcript, the map centre and the place list are the ones the page
    had before the failure (the map fields being those from before the
    submission). *)
Theorem C10_failed_submit_does_not_restore_input
    (s : State) (r : FetchResult) :
  trim (input s) <> [] ->
  agent_call_failed r = true ->
  exists s1 req s2,
    handleSubmit_begin s = (s1, Some req)
    /\ prompt req = trim (input s)
    /\ input s1 = []
    /\ messages s1 = messages s ++ [mkChatMessage user (JStr (trim (input s)))]
    /\ (mapCenter s1, mapPlaces s1) = (mapCenter s, mapPlaces s)
    /\ handleSubmit_resolve r s1 = Some s2
    /\ input s2 = []
    /\ messages s2 = messages s1
    /\ (mapCenter s2, mapPlaces s2) = (mapCenter s1, mapPlaces s1)
    /\ (lang s2, hasInteracted s2, modelName s2, modelOptions s2)
       = (lang s1, hasInteracted s1, modelName s1, modelOptions s1).
Proof.
  intros Hp Hfail.
  rewrite (handleSubmit_begin_nonblank s Hp).
  destruct (agent_try_failed r Hfail) as [err Herr].
  do 3 eexists. split; [reflexivity|].
  unfold handleSubmit_resolve. rewrite Herr.
  repeat split.
Qed.

(* ------------------------------------------------------------------ *)
(** * The seeded transcript *)

Lemma seedEffect_keeps (s : State) :
  hasInteracted (seedEffect s) = hasInteracted s
  /\ lang (seedEffect s) = lang s.
Proof. unfold seedEffect. destruct (hasInteracted s) eqn:E; auto. Qed.

Lemma run_effects_keeps (before after : State) :
  hasInteracted (run_effects before after) = hasInteracted after
  /\ lang (run_effects before after) = lang after.
Proof.
  unfold run_effects.
  destruct (_ && _); [auto | apply seedEffect_keeps].
Qed.

Lemma run_effects_interacted (before after : State) :
  hasInteracted after = true -> run_effects before after = after.
Proof.
  intros H. unfold run_effects, seedEffect. rewrite H.
  destruct (_ && _); reflexivity.
Qed.

Lemma Lang_eqb_eq (a b : Lang) : Lang_eqb a b = true -> a = b.
Proof. destruct a, b; simpl; congruence. Qed.

Lemma handleSubmit_resolve_keeps (r : FetchResult) (s s' : State) :
  handleSubmit_resolve r s = Some s' ->
  hasInteracted s' = hasInteracted s /\ lang s' = lang s.
Proof.
  unfold handleSubmit_resolve.
  destruct (agent_try r) as [data | err].
  - destruct (nullish data); [discriminate|].
    intros E. injection E as <-. unfold apply_response.
    destruct (truthy _ && _), (get data (lit "places")); auto.
  - intros E. injection E as <-. auto.
Qed.

(** [loadModels] touches the registry fields only. *)
Lemma loadModels_resolve_frame (isMounted : bool) (r : FetchResult) (s : State) :
  let s' := loadModels_resolve isMounted r s in
  (lang s', hasInteracted s', messages s', input s')
  = (lang s, hasInteracted s, messages s, input s)
  /\ (mapCenter s', mapPlaces s', status s', error s')
     = (mapCenter s, mapPlaces s, status s, error s).
Proof.
  unfold loadModels_resolve, loadModels_try.
  destruct r as [err | st body]; [destruct isMounted; auto|].
  destruct (ok st); cbn [negb]; [|destruct isMounted; auto].
  destruct body as [data | err]; [|destruct isMounted; auto].
  destruct isMounted; [|auto].
  destruct (get_checked data (lit "data")) as [[| | | | |opts|]|]; auto.
  destruct opts as [|first rest]; auto.
  destruct (get_checked first (lit "id")); auto.
Qed.

(** While the user has not interacted, the transcript is the scripted
    exchange in the current language, and no agent call is in flight. *)
Lemma seed_invariant (w : World) :
  reachable w ->
  hasInteracted (ui w) = false ->
  messages (ui w) = seedTranscript (lang (ui w)) /\ inflight w = [].
Proof.
  induction 1 as [|e w w' Hreach IH Hstep]; [intros _; split; reflexivity|].
  intros Hfresh.
  destruct e as [l | t | id | | i r | r]; cbn [dispatch] in Hstep.
  - injection Hstep as <-. cbn [ui inflight] in *.
    destruct (run_effects_keeps (ui w) (setLang l (ui w))) as [Hh _].
    rewrite Hh in Hfresh. cbn in Hfresh.
    destruct (IH Hfresh) as [Hm Hfl]. split; [|exact Hfl].
    unfold run_effects. cbn [lang hasInteracted setLang].
    rewrite Bool.eqb_reflx, andb_true_r.
    destruct (Lang_eqb (lang (ui w)) l) eqn:El.
    + apply Lang_eqb_eq in El. subst l. exact Hm.
    + unfold seedEffect. cbn [hasInteracted setLang]. rewrite Hfresh.
      reflexivity.
  - injection Hstep as <-. cbn in *. auto.
  - injection Hstep as <-. cbn in *. auto.
  - destruct (trim (input (ui w))) eqn:Hp.
    + unfold handleSubmit_begin in Hstep. rewrite Hp in Hstep.
      injection Hstep as <-. cbn [ui inflight] in *.
      destruct (run_effects_keeps (ui w) (ui w)) as [Hh _].
      rewrite Hh in Hfresh. destruct (IH Hfresh) as [Hm Hfl].
      rewrite app_nil_r. split; [|exact Hfl].
      unfold run_effects. destruct (_ && _); [exact Hm|].
      unfold seedEffect. rewrite Hfresh. reflexivity.
    + rewrite handleSubmit_begin_nonblank in Hstep by congruence.
      injection Hstep as <-. cbn [ui] in Hfresh.
      rewrite run_effects_interacted in Hfresh by reflexivity.
      discriminate.
  - destruct (nth_error (inflight w) i) eqn:Hi; [|discriminate].
    destruct (handleSubmit_resolve r (ui w)) as [s'|] eqn:Hr; [|discriminate].
    injection Hstep as <-. cbn [ui] in Hfresh.
    destruct (run_effects_keeps (ui w) s') as [Hh _].
    destruct (handleSubmit_resolve_keeps _ _ _ Hr) as [Hh' _].
    rewrite Hh, Hh' in Hfresh.
    destruct (IH Hfresh) as [_ Hfl]. rewrite Hfl in Hi.
    destruct i; discriminate.
  - destruct (registryPending w); [|discriminate].
    injection Hstep as <-. cbn [ui inflight] in *.
    pose proof (loadModels_resolve_frame true r (ui w)) as [F _].
    cbv zeta in F. injection F as Fl Fh Fm _.
    rewrite Fh in Hfresh. rewrite Fm, Fl. exact (IH Hfresh).
Qed.

(** C6, as amended.  While the user has not interacted, choosing a
    language replaces the transcript by the scripted exchange in that
    language.  The first real submission does not replace the scripted
    exchange: the user's message is appended after its three messages.
    Once the user has interacted, choosing a language leaves the
    transcript as it is. *)
Theorem C6_seed_is_kept_and_appended_to (w : World) :
  reachable w ->
  hasInteracted (ui w) = false ->
  messages (ui w) = seedTranscript (lang (ui w))
  /\ (forall l, exists w',
         dispatch (ClickLang l) w = Some w'
         /\ hasInteracted (ui w') = false
         /\ messages (ui w') = seedTranscript l)
  /\ (trim (input (ui w)) <> [] ->
      exists w',
        dispatch Submit w = Some w'
        /\ hasInteracted (ui w') = true
        /\ messages (ui w') =
           seedTranscript (lang (ui w))
             ++ [mkChatMessage user (JStr (trim (input (ui w))))]
        /\ forall l w'',
            dispatch (ClickLang l) w' = Some w'' ->
            messages (ui w'') = messages (ui w')).
Proof.
  intros Hreach Hfresh.
  destruct (seed_invariant w Hreach Hfresh) as [Hm _].
  split; [exact Hm|]. split.
  - intros l. eexists. split; [reflexivity|]. cbn [ui].
    destruct (run_effects_keeps (ui w) (setLang l (ui w))) as [Hh _].
    split; [rewrite Hh; exact Hfresh|].
    unfold run_effects. cbn [lang hasInteracted setLang].
    rewrite Bool.eqb_reflx, andb_true_r.
    destruct (Lang_eqb (lang (ui w)) l) eqn:El.
    + apply Lang_eqb_eq in El. subst l. exact Hm.
    + unfold seedEffect. cbn [hasInteracted setLang]. rewrite Hfresh.
      reflexivity.
  - intros Hp. cbn [dispatch].
    rewrite (handleSubmit_begin_nonblank _ Hp).
    rewrite run_effects_interacted by reflexivity.
    eexists. split; [reflexivity|]. cbn [ui].
    split; [reflexivity|]. split; [cbn; rewrite Hm; reflexivity|].
    intros l w'' E. cbn [dispatch ui] in E. injection E as <-. cbn [ui].
    unfold run_effects, seedEffect. cbn.
    destruct (_ && _); reflexivity.
Qed.

(* ------------------------------------------------------------------ *)
(** * The model registry *)

(** X15.  Once the effect's clean-up has cleared [isMounted], the
    continuation of [loadModels] changes nothing, whatever the registry
    answered: neither the options, nor the selection, nor the error, nor
    the loading flag. *)
Lemma loadModels_resolve_unmounted (r : FetchResult) (s : State) :
  loadModels_resolve false r s = s.
Proof.
  unfold loadModels_resolve, loadModels_try.
  destruct r as [err | st body]; [reflexivity|].
  destruct (ok st); cbn [negb]; [destruct body|]; reflexivity.
Qed.

Lemma loadModels_resolve_failed (r : FetchResult) (s : State) :
  registry_fetch_failed r = true ->
  exists err,
    loadModels_resolve true r s =
    setModelsLoading false
      (setModelsError (Some (message_or (lit "Model list failed") err))
         (setModelOptions [] s))
    /\ (forall e, r = FetchRejected e -> err = e)
    /\ (forall st body, r = FetchResponse st body ->
        err = ErrorObject (lit "Model list failed (" ++ decimal st ++ lit ")")).
Proof.
  intros Hfail. unfold loadModels_resolve, loadModels_try.
  destruct r as [e | st body]; simpl in Hfail.
  - exists e. split; [reflexivity|]. split; [congruence | discriminate].
  - rewrite Hfail. eexists. split; [reflexivity|].
    split; [discriminate|]. intros st' body' E. injection E as <- _.
    reflexivity.
Qed.

(** C8.  When the registry fetch fails ([fetch] rejected, or a status
    outside 2xx), the page ends with an empty list of model options
    whatever the list held before, with an error message stored (the
    thrown message, or "Model list failed (<status>)") and the loading
    flag cleared; the model identifier is the one the page had, and the
    next agent request carries it. *)
Theorem C8_registry_failure_clears_options (r : FetchResult) (w : World) :
  registry_fetch_failed r = true ->
  registryPending w = true ->
  exists w',
    dispatch (RegistrySettled r) w = Some w'
    /\ ui w' = loadModels_resolve true r (ui w)
    /\ modelOptions (ui w') = []
    /\ modelsError (ui w') <> None
    /\ (forall err, r = FetchRejected err ->
        modelsError (ui w') = Some (message_or (lit "Model list failed") err))
    /\ (forall st body, r = FetchResponse st body ->
        modelsError (ui w') =
        Some (lit "Model list failed (" ++ decimal st ++ lit ")"))
    /\ modelsLoading (ui w') = false
    /\ modelName (ui w') = modelName (ui w)
    /\ (forall q, snd (handleSubmit_begin (ui w')) = Some q ->
        model_name q = modelName (ui w)).
Proof.
  intros Hfail Hpending. cbn [dispatch]. rewrite Hpending.
  eexists. split; [reflexivity|]. cbn [ui]. split; [reflexivity|].
  destruct (loadModels_resolve_failed r (ui w) Hfail) as (err & -> & Hrej & Hst).
  split; [reflexivity|]. split; [discriminate|].
  split; [intros e E; rewrite (Hrej e E); reflexivity|].
  split; [intros st body E; rewrite (Hst st body E); reflexivity|].
  split; [reflexivity|]. split; [reflexivity|].
  intros q. unfold handleSubmit_begin. cbn [input setModelsLoading
    setModelsError setModelOptions modelName].
  destruct (trim (input (ui w))); cbn; [discriminate|].
  intros E. injection E as <-. reflexivity.
Qed.

(* ------------------------------------------------------------------ *)
(** * Two calls in flight *)

Lemma nth_error_app_length {A : Type} (l r : list A) (k : nat) :
  nth_error (l ++ r) (List.length l + k) = nth_error r k.
Proof. induction l as [|x l IH]; [reflexivity | exact IH]. Qed.

Lemma remove_nth_app_length {A : Type} (l r : list A) (k : nat) :
  remove_nth (List.length l + k) (l ++ r) = l ++ remove_nth k r.
Proof.
  induction l as [|x l IH]; [reflexivity|].
  cbn [List.length Nat.add app remove_nth]. rewrite IH. reflexivity.
Qed.

Lemma nth_error_at_length {A : Type} (l r : list A) (a : A) :
  nth_error (l ++ a :: r) (List.length l) = Some a.
Proof.
  rewrite <- (Nat.add_0_r (List.length l)), nth_error_app_length.
  reflexivity.
Qed.

Lemma nth_error_after_one {A : Type} (l r : list A) (a b : A) :
  nth_error (l ++ a :: b :: r) (S (List.length l)) = Some b.
Proof.
  rewrite <- (Nat.add_1_r (List.length l)), nth_error_app_length.
  reflexivity.
Qed.

Lemma remove_nth_at_length {A : Type} (l r : list A) (a : A) :
  remove_nth (List.length l) (l ++ a :: r) = l ++ r.
Proof.
  rewrite <- (Nat.add_0_r (List.length l)), remove_nth_app_length.
  reflexivity.
Qed.

Lemma remove_nth_after_one {A : Type} (l r : list A) (a b : A) :
  remove_nth (S (List.length l)) (l ++ a :: b :: r) = l ++ a :: r.
Proof.
  rewrite <- (Nat.add_1_r (List.length l)), remove_nth_app_length.
  reflexivity.
Qed.

Lemma dispatch_Submit_nonblank (w : World) :
  trim (input (ui w)) <> [] ->
  dispatch Submit w =
  Some (mkWorld (fst (handleSubmit_begin (ui w)))
          (inflight w ++ [mkAgentRequest (trim (input (ui w))) (modelName (ui w))])
          (registryPending w)).
Proof.
  intros Hp. cbn [dispatch]. rewrite (handleSubmit_begin_nonblank _ Hp).
  rewrite run_effects_interacted by reflexivity. reflexivity.
Qed.

Lemma dispatch_AgentSettled_success
    (w : World) (i : nat) (q : AgentRequest) (st : N) (data : value) :
  nth_error (inflight w) i = Some q ->
  ok st = true -> nullish data = false ->
  hasInteracted (ui w) = true ->
  dispatch (AgentSettled i (FetchResponse st (BodyJson data))) w =
  Some (mkWorld (apply_response data (ui w)) (remove_nth i (inflight w))
          (registryPending w)).
Proof.
  intros Hi Hok Hdata Hint. cbn [dispatch]. rewrite Hi.
  unfold handleSubmit_resolve, agent_try. rewrite Hok, Hdata.
  rewrite run_effects_interacted; [reflexivity|].
  unfold apply_response.
  destruct (truthy _ && _), (get data (lit "places")); exact Hint.
Qed.

Lemma run_cons (e : Event) (es : list Event) (w w' : World) :
  dispatch e w = Some w' -> run (e :: es) w = run es w'.
Proof. intros H. cbn [run]. rewrite H. reflexivity. Qed.

(** C9, as amended.  Responses are applied in the order in which their
    calls complete.  When call 1 is issued, call 2 is issued before call 1
    settles, and call 1 settles after call 2, both successfully, the
    transcript ends with the reply of call 2 followed by the reply of
    call 1, and the map centre and the place list are those of call 1
    whenever call 1 supplies them (a centre with a numeric [lat], an array
    of places); those of call 2 remain only where call 1 supplies none. *)
Theorem C9_later_completion_wins
    (w : World) (p1 p2 : jsstring) (st1 st2 : N) (d1 d2 : value) :
  trim p1 <> [] -> trim p2 <> [] ->
  ok st1 = true -> ok st2 = true ->
  nullish d1 = false -> nullish d2 = false ->
  let n := List.length (inflight w) in
  exists w',
    run [TypeInput p1; Submit; TypeInput p2; Submit;
         AgentSettled (S n) (FetchResponse st2 (BodyJson d2));
         AgentSettled n (FetchResponse st1 (BodyJson d1))] w = Some w'
    /\ messages (ui w') =
       messages (ui w)
         ++ [mkChatMessage user (JStr (trim p1));
             mkChatMessage user (JStr (trim p2));
             mkChatMessage agent (agent_text d2);
             mkChatMessage agent (agent_text d1)]
    /\ mapCenter (ui w') =
       (if has_numeric_lat (get d1 (lit "center")) then get d1 (lit "center")
        else if has_numeric_lat (get d2 (lit "center"))
             then get d2 (lit "center")
             else mapCenter (ui w))
    /\ mapPlaces (ui w') =
       match get d1 (lit "places"), get d2 (lit "places") with
       | JArr l1, _ => l1
       | _, JArr l2 => l2
       | _, _ => mapPlaces (ui w)
       end
    /\ status (ui w') = StatusIdle
    /\ inflight w' = inflight w.
Proof.
  intros Hp1 Hp2 Hok1 Hok2 Hd1 Hd2 n. subst n.
  erewrite run_cons by reflexivity.
  erewrite run_cons by (apply dispatch_Submit_nonblank; exact Hp1).
  erewrite run_cons by reflexivity.
  erewrite run_cons by (apply dispatch_Submit_nonblank; exact Hp2).
  cbn [ui inflight registryPending input setInput modelName].
  rewrite !handleSubmit_begin_nonblank by assumption.
  cbn [fst]. rewrite <- app_assoc. cbn [app].
  erewrite run_cons; cycle 1.
  { eapply dispatch_AgentSettled_success;
      [apply nth_error_after_one | exact Hok2 | exact Hd2 | reflexivity]. }
  cbn [ui inflight registryPending]. rewrite remove_nth_after_one.
  erewrite run_cons; cycle 1.
  { eapply dispatch_AgentSettled_success;
      [apply nth_error_at_length | exact Hok1 | exact Hd1 | ].
    cbn [ui]. unfold apply_response.
    destruct (truthy _ && _), (get d2 (lit "places")); reflexivity. }
  cbn [run ui inflight registryPending].
  rewrite remove_nth_at_length, app_nil_r.
  eexists. split; [reflexivity|]. cbn [ui inflight].
  unfold apply_response. rewrite !has_numeric_lat_guard.
  destruct (has_numeric_lat (get d1 (lit "center"))),
           (has_numeric_lat (get d2 (lit "center"))),
           (get d1 (lit "places")), (get d2 (lit "places"));
    cbn; rewrite <- ?app_assoc; cbn [app]; repeat split; reflexivity.
Qed.

(* ------------------------------------------------------------------ *)
(** * More on the map view *)

Lemma filter_throwing_kept (f : value -> option bool) (l ms : list value) :
  filter_throwing f l = Some ms -> Forall (fun p => f p = Some true) ms.
Proof.
  revert ms. induction l as [|p rest IH]; cbn [filter_throwing]; intros ms E.
  - injection E as <-. constructor.
  - destruct (f p) as [keep|] eqn:Hp; [|discriminate].
    destruct (filter_throwing f rest) as [kept|]; [|discriminate].
    injection E as <-. destruct keep; [constructor; auto | auto].
Qed.

Lemma renderable_true (p : value) :
  renderable p = Some true ->
  is_number (get p (lit "lat")) = true /\ is_number (get p (lit "lon")) = true.
Proof.
  rewrite renderable_spec. destruct (nullish p); [discriminate|].
  intros E. injection E as E. apply andb_true_iff in E. exact E.
Qed.

Lemma markers_None_iff (places : list value) :
  markers (Some places) = None
  <-> Exists (fun p => nullish p = true) places.
Proof.
  unfold markers. split; [|apply filter_throwing_null].
  induction places as [|p rest IH]; [discriminate|].
  cbn [filter_throwing]. rewrite renderable_spec.
  destruct (nullish p) eqn:Hp; [left; exact Hp|].
  intros E. right. apply IH.
  destruct (filter_throwing renderable rest); [discriminate | reflexivity].
Qed.

Lemma marker_keys_None_iff (ms : list value) :
  marker_keys ms = None
  <-> Exists (fun p => exists culprit,
                  ToString (get p (lit "name")) = CannotConvert culprit) ms.
Proof.
  unfold marker_keys.
  assert (H : marker_labels ms = None
              <-> Exists (fun p => exists culprit,
                    ToString (get p (lit "name")) = CannotConvert culprit) ms).
  { induction ms as [|p rest IH]; cbn [marker_labels].
    - split; [discriminate | intros E; inversion E].
    - destruct (ToString (get p (lit "name"))) as [name | c] eqn:Hn.
      + split.
        * intros E. right. apply IH.
          destruct (marker_labels rest); [discriminate | reflexivity].
        * intros E. inversion E as [? ? [c Hc] | ? ? Hrest]; subst.
          -- congruence.
          -- apply IH in Hrest. rewrite Hrest. reflexivity.
      + split; [intros _; left; eauto | reflexivity]. }
  destruct (marker_labels ms); cbn [option_map];
    split; intros E; try discriminate; try reflexivity.
  - apply H in E. discriminate.
  - apply H. reflexivity.
Qed.

(** X1.  The render of [MapView] throws in two cases only.  Mounted or
    not, it throws when the list of places has a [null] (or [undefined])
    element: the filter reads [p.lat] of every element before anything is
    drawn.  When mounted, it also throws when a place that passes the
    filter has a name that cannot be converted to a string for the key of
    its marker (an object with an own property [toString], or an array
    holding one); a name that is a string, a number, a boolean or absent
    never does that. *)
Theorem X1_MapView_throws_iff_null_place_or_bad_key
    (center : value) (places : list value) :
  (MapView false center (Some places) = None
   <-> Exists (fun p => nullish p = true) places)
  /\ (MapView true center (Some places) = None
      <-> Exists (fun p => nullish p = true) places
          \/ exists ms,
               markers (Some places) = Some ms
               /\ Exists (fun p => exists culprit,
                            ToString (get p (lit "name"))
                            = CannotConvert culprit) ms)
  /\ (forall name,
        match name with
        | JArr _ | JObj _ => True
        | _ => exists text, ToString name = AsString text
        end).
Proof.
  split; [|split].
  - rewrite <- markers_None_iff. unfold MapView.
    destruct (markers (Some places)); cbn [negb];
      split; intros E; try discriminate; reflexivity.
  - rewrite <- markers_None_iff. unfold MapView.
    destruct (markers (Some places)) as [ms|] eqn:Hms; cbn [negb].
    + destruct ms as [|p rest]; cbn [List.length Nat.ltb Nat.leb].
      * split; [discriminate|].
        intros [E | (ms & E & Hbad)]; [discriminate|].
        injection E as <-. inversion Hbad.
      * split.
        -- destruct (marker_keys (p :: rest)) eqn:Hk; [discriminate|].
           intros _. right. exists (p :: rest).
           split; [reflexivity | apply marker_keys_None_iff; exact Hk].
        -- intros [E | (ms & E & Hbad)]; [discriminate|].
           injection E as <-. apply marker_keys_None_iff in Hbad.
           rewrite Hbad. reflexivity.
    + split; [intros _; left; reflexivity | reflexivity].
  - intros [| |[|]| | | |]; cbn; eauto.
Qed.

(** X2.  Every marker of a mounted map stands at a position whose two
    coordinates are numbers; when some place is renderable the markers
    are those of the renderable places, one each and in their order. *)
Theorem X2_markers_stand_on_numbers
    (center : value) (places : option (list value)) (m : MapContainer) :
  MapView true center places = Some (MapMounted m) ->
  Forall (fun mk => is_number (fst (mk_position mk)) = true
                    /\ is_number (snd (mk_position mk)) = true)
    (mc_markers m)
  /\ (forall ms, markers places = Some ms -> ms <> [] ->
      mc_markers m = map place_marker ms
      /\ List.length (mc_markers m) = List.length ms).
Proof.
  unfold MapView. destruct (markers places) as [ms|] eqn:Hms; [|discriminate].
  cbn [negb]. destruct ms as [|p rest]; cbn [List.length Nat.ltb Nat.leb].
  - intros E. injection E as <-. cbn [mc_markers].
    split; [repeat constructor|].
    intros ms' E Hne. injection E as <-. congruence.
  - destruct (marker_keys (p :: rest)); [|discriminate].
    intros E. injection E as <-. cbn [mc_markers]. split.
    + apply filter_throwing_kept in Hms.
      refine (proj2 (Forall_map place_marker _ (p :: rest)) _).
      revert Hms. apply Forall_impl.
      intros q Hq. exact (renderable_true q Hq).
    + intros ms' E _. injection E as <-.
      split; [reflexivity | exact (length_map place_marker (p :: rest))].
Qed.

(** X3.  Both components of the centre given to the map container are
    truthy, whatever the [center] prop is; and when [MapUpdater] moves the
    view, it moves it to that same centre, at zoom 13. *)
Theorem X3_MapUpdater_moves_to_viewCenter (center : value) :
  truthy (fst (viewCenter center)) = true
  /\ truthy (snd (viewCenter center)) = true
  /\ forall sv, MapUpdater center = Some sv ->
       (sv_lat sv, sv_lon sv) = viewCenter center /\ sv_zoom sv = 13%N.
Proof.
  unfold viewCenter, MapUpdater, js_or, js_and. cbn [fst snd].
  destruct (truthy (optchain center (lit "lat"))) eqn:Hlat;
    destruct (truthy (optchain center (lit "lon"))) eqn:Hlon;
    rewrite ?Hlat, ?Hlon;
    (split; [auto|split; [auto|intros sv E; try discriminate]]).
  injection E as <-. cbn [sv_lat sv_lon sv_zoom]. split; [|reflexivity].
  rewrite <- !optchain_defined by (apply truthy_not_nullish; assumption).
  reflexivity.
Qed.

(** X4.  The map of the page shows the places of the latest successful
    response only: after a response whose [places] is an array of objects,
    the markers are those of its renderable places, with their keys, or
    the default marker if there is none, whatever the place list held
    before; the render throws when the key of one of these markers cannot
    be formed, and in no other case. *)
Theorem X4_page_map_shows_latest_places
    (data : value) (s : State) (l : list value) :
  get data (lit "places") = JArr l ->
  Forall (fun p => nullish p = false) l ->
  let s' := apply_response data s in
  let shown := filter (fun p => is_number (get p (lit "lat"))
                                && is_number (get p (lit "lon"))) l in
  page_map true s' =
  match shown with
  | [] =>
      Some (MapMounted
              (mkMapContainer (viewCenter (mapCenter s')) 12
                 (MapUpdater (mapCenter s')) [default_marker] []))
  | _ :: _ =>
      match marker_keys shown with
      | Some keys =>
          Some (MapMounted
                  (mkMapContainer (viewCenter (mapCenter s')) 12
                     (MapUpdater (mapCenter s'))
                     (map place_marker shown) keys))
      | None => None
      end
  end.
Proof.
  intros Hp Hl s' shown.
  assert (Hplaces : mapPlaces s' = l).
  { subst s'. unfold apply_response. rewrite Hp.
    destruct (truthy _ && _); reflexivity. }
  unfold page_map, MapClient, MapView, markers. rewrite Hplaces.
  rewrite (filter_throwing_renderable l Hl). fold shown. cbn [negb].
  destruct shown; reflexivity.
Qed.

(* ------------------------------------------------------------------ *)
(** * More on [handleSubmit] *)

Lemma trimStart_split (s : jsstring) :
  exists pre, s = pre ++ trimStart s /\ forallb is_whitespace pre = true.
Proof.
  induction s as [|c s [pre [E H]]]; [exists []; auto|].
  cbn [trimStart]. destruct (is_whitespace c) eqn:Hc.
  - exists (c :: pre). cbn [app forallb]. rewrite Hc, H.
    split; [f_equal; exact E | reflexivity].
  - exists []. auto.
Qed.

Lemma trimStart_head (s : jsstring) (c : N) (r : jsstring) :
  trimStart s = c :: r -> is_whitespace c = false.
Proof.
  induction s as [|a s IH]; cbn [trimStart]; [discriminate|].
  destruct (is_whitespace a) eqn:H; [exact IH|].
  intros E. injection E as <- _. exact H.
Qed.

Lemma trimStart_fixed (c : N) (r : jsstring) :
  is_whitespace c = false -> trimStart (c :: r) = c :: r.
Proof. cbn [trimStart]. intros ->. reflexivity. Qed.

(** What [trim] returns is trimmed: trimming it again changes nothing,
    and when it is not empty it neither starts nor ends with a blank. *)
Lemma trim_trimmed (s : jsstring) :
  trim (trim s) = trim s
  /\ (trim s <> [] ->
      is_whitespace (hd 0%N (trim s)) = false
      /\ is_whitespace (last (trim s) 0%N) = false).
Proof.
  assert (Ht : trim s = rev (trimStart (rev (trimStart s)))) by reflexivity.
  rewrite !Ht. clear Ht.
  destruct (trimStart_split (rev (trimStart s))) as [pre [E _]].
  destruct (trimStart (rev (trimStart s))) as [|c v'] eqn:Hv.
  - split; [reflexivity | intros H; exfalso; apply H; reflexivity].
  - pose proof (trimStart_head _ _ _ Hv) as Hc.
    assert (Et : trimStart s = rev (c :: v') ++ rev pre).
    { rewrite <- rev_app_distr, <- E, rev_involutive. reflexivity. }
    assert (Hlast : last (rev (c :: v')) 0%N = c).
    { cbn [rev]. apply last_last. }
    destruct (rev (c :: v')) as [|h u'] eqn:Hu.
    { cbn [rev] in Hu. destruct (rev v'); discriminate. }
    cbn [app] in Et. pose proof (trimStart_head _ _ _ Et) as Hh.
    assert (Hrev : rev (h :: u') = c :: v').
    { rewrite <- Hu. apply rev_involutive. }
    split.
    + unfold trim, trimEnd. rewrite (trimStart_fixed h u' Hh), Hrev.
      rewrite (trimStart_fixed c v' Hc). exact Hu.
    + intros _. split; [exact Hh|]. rewrite Hlast. exact Hc.
Qed.

(** X5.  Whatever the status of the page (a call may be in flight, or
    the last one may have failed), submitting a prompt that is not blank
    appends one user message carrying the trimmed prompt, empties the
    input, clears the stored error, sets the status to thinking, marks the
    page as interacted with, and adds exactly one request to the calls in
    flight, carrying the trimmed prompt and the current model identifier.
    The language, the registry fields and the map fields are untouched. *)
Theorem X5_submit_starts_a_call (w : World) :
  trim (input (ui w)) <> [] ->
  exists w',
    dispatch Submit w = Some w'
    /\ inflight w' =
       inflight w ++ [mkAgentRequest (trim (input (ui w))) (modelName (ui w))]
    /\ messages (ui w') =
       messages (ui w) ++ [mkChatMessage user (JStr (trim (input (ui w))))]
    /\ (input (ui w'), error (ui w'), status (ui w'), hasInteracted (ui w'))
       = ([], None, StatusThinking, true)
    /\ (lang (ui w'), mapCenter (ui w'), mapPlaces (ui w'))
       = (lang (ui w), mapCenter (ui w), mapPlaces (ui w))
    /\ (modelName (ui w'), modelOptions (ui w'), modelsLoading (ui w'),
        modelsError (ui w'))
       = (modelName (ui w), modelOptions (ui w), modelsLoading (ui w),
          modelsError (ui w))
    /\ registryPending w' = registryPending w.
Proof.
  intros Hp. rewrite (dispatch_Submit_nonblank w Hp).
  rewrite (handleSubmit_begin_nonblank _ Hp).
  eexists. split; [reflexivity|]. repeat split.
Qed.

(** X6.  A request is sent only with a prompt that is not empty, that
    trimming leaves as it is, and that neither starts nor ends with a
    blank; the user message added to the transcript carries the same
    text. *)
Theorem X6_prompt_sent_is_trimmed (s : State) (q : AgentRequest) :
  snd (handleSubmit_begin s) = Some q ->
  prompt q <> []
  /\ trim (prompt q) = prompt q
  /\ is_whitespace (hd 0%N (prompt q)) = false
  /\ is_whitespace (last (prompt q) 0%N) = false
  /\ messages (fst (handleSubmit_begin s)) =
     messages s ++ [mkChatMessage user (JStr (prompt q))].
Proof.
  destruct (trim (input s)) as [|c r] eqn:Hp.
  - unfold handleSubmit_begin. rewrite Hp. discriminate.
  - assert (Hne : trim (input s) <> []) by (rewrite Hp; discriminate).
    rewrite (handleSubmit_begin_nonblank s Hne). cbn [fst snd].
    intros E. injection E as <-. cbn [prompt].
    destruct (trim_trimmed (input s)) as [Hidem Hends].
    destruct (Hends Hne) as [Hhd Hlast].
    split; [exact Hne|]. split; [exact Hidem|].
    split; [exact Hhd|]. split; [exact Hlast | reflexivity].
Qed.

(** X7.  A failure is recovered from by the next submission: after a
    failed call has left the page in the error state with a message, a
    new prompt that is not blank clears the message and sets the status
    to thinking, and when that call succeeds the page is idle with no
    error, the transcript having gained the second prompt and its reply
    (and no bubble for the failure). *)
Theorem X7_retry_after_failure
    (s : State) (failure : FetchResult) (p : jsstring)
    (http_status : N) (data : value) :
  agent_call_failed failure = true ->
  trim p <> [] ->
  ok http_status = true -> nullish data = false ->
  exists s1 s2 s3,
    handleSubmit_resolve failure s = Some s1
    /\ status s1 = StatusError /\ error s1 <> None
    /\ fst (handleSubmit_begin (setInput p s1)) = s2
    /\ status s2 = StatusThinking /\ error s2 = None
    /\ handleSubmit_resolve (FetchResponse http_status (BodyJson data)) s2
       = Some s3
    /\ status s3 = StatusIdle /\ error s3 = None
    /\ messages s3 =
       messages s ++ [mkChatMessage user (JStr (trim p));
                      mkChatMessage agent (agent_text data)].
Proof.
  intros Hfail Hp Hok Hdata.
  destruct (agent_try_failed failure Hfail) as [err Herr].
  unfold handleSubmit_resolve at 1. rewrite Herr.
  eexists. eexists. eexists. split; [reflexivity|].
  split; [reflexivity|]. split; [discriminate|].
  rewrite handleSubmit_begin_nonblank by exact Hp.
  split; [reflexivity|]. split; [reflexivity|]. split; [reflexivity|].
  unfold handleSubmit_resolve, agent_try. rewrite Hok, Hdata.
  split; [reflexivity|]. unfold apply_response.
  destruct (truthy _ && _), (get data (lit "places"));
    cbn; rewrite <- app_assoc; repeat split.
Qed.

(* ------------------------------------------------------------------ *)
(** * Invariants of the page *)

Lemma run_effects_cases (before after : State) :
  run_effects before after = after
  \/ (hasInteracted after = false
      /\ run_effects before after =
         setMessages (fun _ => seedTranscript (lang after)) after).
Proof.
  unfold run_effects, seedEffect.
  destruct (_ && _); [left; reflexivity|].
  destruct (hasInteracted after); [left | right]; auto.
Qed.

Lemma handleSubmit_begin_cases (s : State) :
  handleSubmit_begin s = (s, None)
  \/ (trim (input s) <> []
      /\ handleSubmit_begin s =
         (setMessages
            (fun prev => prev ++ [mkChatMessage user (JStr (trim (input s)))])
            (setStatus StatusThinking
               (setError None (setInput [] (setHasInteracted true s)))),
          Some (mkAgentRequest (trim (input s)) (modelName s)))).
Proof.
  destruct (trim (input s)) eqn:Hp.
  - left. unfold handleSubmit_begin. rewrite Hp. reflexivity.
  - right. assert (H : trim (input s) <> []) by (rewrite Hp; discriminate).
    rewrite Hp in H. split; [exact H|]. rewrite <- Hp.
    apply handleSubmit_begin_nonblank. rewrite Hp. exact H.
Qed.

(** What the continuation of [handleSubmit] does to a state, in one of
    two shapes. *)
Lemma handleSubmit_resolve_cases (r : FetchResult) (s s' : State) :
  handleSubmit_resolve r s = Some s' ->
  (exists data, s' = apply_response data s)
  \/ (exists err, s' = agent_catch err s).
Proof.
  unfold handleSubmit_resolve. destruct (agent_try r) as [data | err].
  - destruct (nullish data); [discriminate|]. intros E. injection E as <-.
    left. eauto.
  - intros E. injection E as <-. right. eauto.
Qed.

Lemma apply_response_fields (data : value) (s : State) :
  let s' := apply_response data s in
  messages s' = messages s ++ [mkChatMessage agent (agent_text data)]
  /\ status s' = StatusIdle
  /\ (modelName s', modelOptions s', modelsLoading s', modelsError s')
     = (modelName s, modelOptions s, modelsLoading s, modelsError s).
Proof.
  unfold apply_response.
  destruct (truthy _ && _), (get data (lit "places")); repeat split.
Qed.

Lemma dispatch_transcript (e : Event) (w w' : World) :
  dispatch e w = Some w' ->
  (exists suffix,
      messages (ui w') = messages (ui w) ++ suffix
      /\ List.length suffix <= 1)
  \/ (hasInteracted (ui w') = false
      /\ messages (ui w') = seedTranscript (lang (ui w'))).
Proof.
  assert (Hsame : forall m : list ChatMessage,
             exists suffix, m = m ++ suffix /\ List.length suffix <= 1).
  { intros m. exists []. rewrite app_nil_r. auto. }
  assert (Heff : forall (b a : State) (sfx : list ChatMessage),
             messages a = messages (ui w) ++ sfx -> List.length sfx <= 1 ->
             (exists suffix,
                 messages (run_effects b a) = messages (ui w) ++ suffix
                 /\ List.length suffix <= 1)
             \/ (hasInteracted (run_effects b a) = false
                 /\ messages (run_effects b a)
                    = seedTranscript (lang (run_effects b a)))).
  { intros b a sfx Ha Hlen.
    destruct (run_effects_cases b a) as [-> | [Hh ->]].
    - left. eauto.
    - right. split; [exact Hh | reflexivity]. }
  destruct e as [l | t | id | | i r | r]; cbn [dispatch]; intros E.
  - injection E as <-. cbn [ui].
    apply (Heff _ _ []); [cbn; rewrite app_nil_r; reflexivity | auto].
  - injection E as <-. left. apply Hsame.
  - injection E as <-. left. apply Hsame.
  - destruct (handleSubmit_begin_cases (ui w)) as [Hb | [_ Hb]];
      rewrite Hb in E; injection E as <-; cbn [ui].
    + apply (Heff _ _ []); [rewrite app_nil_r; reflexivity | auto].
    + eapply Heff; [reflexivity | auto].
  - destruct (nth_error (inflight w) i); [|discriminate].
    destruct (handleSubmit_resolve r (ui w)) as [s'|] eqn:Hr; [|discriminate].
    injection E as <-. cbn [ui].
    destruct (handleSubmit_resolve_cases _ _ _ Hr) as [[data ->] | [err ->]].
    + eapply Heff; [apply apply_response_fields | auto].
    + apply (Heff _ _ []); [cbn; rewrite app_nil_r; reflexivity | auto].
  - destruct (registryPending w); [|discriminate].
    injection E as <-. cbn [ui]. left.
    pose proof (loadModels_resolve_frame true r (ui w)) as [F _].
    cbv zeta in F. injection F as _ _ -> _. apply Hsame.
Qed.

Lemma dispatch_keeps_interacted (e : Event) (w w' : World) :
  hasInteracted (ui w) = true ->
  dispatch e w = Some w' ->
  hasInteracted (ui w') = true.
Proof.
  intros Hint.
  destruct e as [l | t | id | | i r | r]; cbn [dispatch]; intros E.
  - injection E as <-. cbn [ui].
    rewrite (proj1 (run_effects_keeps _ _)). exact Hint.
  - injection E as <-. exact Hint.
  - injection E as <-. exact Hint.
  - destruct (handleSubmit_begin_cases (ui w)) as [Hb | [_ Hb]];
      rewrite Hb in E; injection E as <-; cbn [ui];
      rewrite (proj1 (run_effects_keeps _ _)); [exact Hint | reflexivity].
  - destruct (nth_error (inflight w) i); [|discriminate].
    destruct (handleSubmit_resolve r (ui w)) as [s'|] eqn:Hr; [|discriminate].
    injection E as <-. cbn [ui].
    rewrite (proj1 (run_effects_keeps _ _)).
    rewrite (proj1 (handleSubmit_resolve_keeps _ _ _ Hr)). exact Hint.
  - destruct (registryPending w); [|discriminate].
    injection E as <-. cbn [ui].
    pose proof (loadModels_resolve_frame true r (ui w)) as [F _].
    cbv zeta in F. injection F as _ -> _ _. exact Hint.
Qed.

(** X8.  Once the user has interacted, the transcript only grows: after
    any sequence of events the old transcript is still there, in its
    order, with at most one message added per event; and the page never
    goes back to the state of not having been interacted with. *)
Theorem X8_transcript_only_grows (es : list Event) (w w' : World) :
  hasInteracted (ui w) = true ->
  run es w = Some w' ->
  hasInteracted (ui w') = true
  /\ exists suffix,
       messages (ui w') = messages (ui w) ++ suffix
       /\ List.length suffix <= List.length es.
Proof.
  revert w. induction es as [|e es IH]; intros w Hint; cbn [run].
  - intros E. injection E as <-. split; [exact Hint|].
    exists []. rewrite app_nil_r. auto.
  - destruct (dispatch e w) as [w1|] eqn:Hd; [|discriminate].
    intros Hrun.
    pose proof (dispatch_keeps_interacted e w w1 Hint Hd) as Hint1.
    destruct (IH w1 Hint1 Hrun) as [Hint' [sfx [Hm Hlen]]].
    split; [exact Hint'|].
    destruct (dispatch_transcript e w w1 Hd) as [[sfx1 [Hm1 Hlen1]] | [Hno _]];
      [|congruence].
    exists (sfx1 ++ sfx). rewrite Hm, Hm1, app_assoc. split; [reflexivity|].
    rewrite length_app. cbn [List.length]. lia.
Qed.

(** X9.  The transcript of the page always begins with the three
    messages of the scripted exchange in one of the two languages: the
    seed is never removed, whatever the user does. *)
Theorem X9_transcript_begins_with_seed (w : World) :
  reachable w ->
  exists l, firstn 3 (messages (ui w)) = seedTranscript l.
Proof.
  induction 1 as [|e w w' Hreach [l IH] Hstep]; [exists en; reflexivity|].
  destruct (dispatch_transcript e w w' Hstep) as [[sfx [Hm _]] | [_ Hm]].
  - exists l. rewrite Hm, firstn_app.
    assert (Hlen : 3 <= List.length (messages (ui w))).
    { pose proof (f_equal (@List.length _) IH) as Hl.
      rewrite length_firstn in Hl.
      change (List.length (seedTranscript l)) with 3 in Hl.
      clear - Hl. lia. }
    replace (3 - List.length (messages (ui w))) with 0 by (clear - Hlen; lia).
    cbn [firstn]. rewrite app_nil_r. exact IH.
  - exists (lang (ui w')). rewrite Hm. reflexivity.
Qed.

Lemma run_effects_frame (before after : State) :
  status (run_effects before after) = status after
  /\ modelsLoading (run_effects before after) = modelsLoading after
  /\ modelOptions (run_effects before after) = modelOptions after
  /\ modelsError (run_effects before after) = modelsError after.
Proof.
  destruct (run_effects_cases before after) as [-> | [_ ->]]; repeat split.
Qed.

Lemma handleSubmit_resolve_settles (r : FetchResult) (s s' : State) :
  handleSubmit_resolve r s = Some s' ->
  status s' <> StatusThinking
  /\ modelsLoading s' = modelsLoading s
  /\ modelOptions s' = modelOptions s
  /\ modelsError s' = modelsError s.
Proof.
  intros Hr.
  destruct (handleSubmit_resolve_cases _ _ _ Hr) as [[data ->] | [err ->]].
  - destruct (apply_response_fields data s) as (_ & Hst & F).
    cbv zeta in *. injection F as _ Ho Hl He. rewrite Hst.
    repeat split; try assumption. discriminate.
  - repeat split. discriminate.
Qed.

(** X10.  The page shows the thinking status only while a call to the
    agent is in flight: a settled call always leaves idle or error. *)
Theorem X10_thinking_means_a_call_in_flight (w : World) :
  reachable w ->
  status (ui w) = StatusThinking ->
  inflight w <> [].
Proof.
  induction 1 as [|e w w' Hreach IH Hstep]; [discriminate|].
  destruct e as [l | t | id | | i r | r]; cbn [dispatch] in Hstep.
  - injection Hstep as <-. cbn [ui inflight].
    rewrite (proj1 (run_effects_frame _ _)). exact IH.
  - injection Hstep as <-. exact IH.
  - injection Hstep as <-. exact IH.
  - destruct (handleSubmit_begin_cases (ui w)) as [Hb | [_ Hb]];
      rewrite Hb in Hstep; injection Hstep as <-; cbn [ui inflight].
    + rewrite (proj1 (run_effects_frame _ _)), app_nil_r. exact IH.
    + intros _ E. destruct (inflight w); discriminate.
  - destruct (nth_error (inflight w) i); [|discriminate].
    destruct (handleSubmit_resolve r (ui w)) as [s'|] eqn:Hr; [|discriminate].
    injection Hstep as <-. cbn [ui inflight].
    rewrite (proj1 (run_effects_frame _ _)).
    intros Hth. exfalso.
    exact (proj1 (handleSubmit_resolve_settles _ _ _ Hr) Hth).
  - destruct (registryPending w); [|discriminate].
    injection Hstep as <-. cbn [ui inflight].
    pose proof (loadModels_resolve_frame true r (ui w)) as [_ F].
    cbv zeta in F. injection F as _ _ -> _. exact IH.
Qed.

Lemma loadModels_resolve_outcome (r : FetchResult) (s : State) :
  modelsLoading (loadModels_resolve true r s) = false
  /\ (modelsError (loadModels_resolve true r s) = modelsError s
      \/ modelOptions (loadModels_resolve true r s) = []).
Proof.
  unfold loadModels_resolve, loadModels_try.
  destruct r as [err | st body]; [auto|].
  destruct (ok st); cbn [negb]; [|auto].
  destruct body as [data | err]; [|auto].
  destruct (get_checked data (lit "data")) as [[| | | | |opts|]|]; auto.
  destruct opts as [|first rest]; auto.
  destruct (get_checked first (lit "id")); auto.
Qed.

(** X11.  The loading flag of the registry is set exactly while the
    registry fetch is pending; while it is pending there are no model
    options and no registry error; and a registry error is never shown
    beside a list of options. *)
Theorem X11_registry_flags_are_consistent (w : World) :
  reachable w ->
  modelsLoading (ui w) = registryPending w
  /\ (registryPending w = true ->
      modelOptions (ui w) = [] /\ modelsError (ui w) = None)
  /\ (modelsError (ui w) <> None -> modelOptions (ui w) = []).
Proof.
  induction 1 as [|e w w' Hreach IH Hstep];
    [split; [reflexivity | split; [auto | intros H; reflexivity]]|].
  destruct e as [l | t | id | | i r | r]; cbn [dispatch] in Hstep.
  - injection Hstep as <-. cbn [ui registryPending].
    destruct (run_effects_frame (ui w) (setLang l (ui w))) as (_ & -> & -> & ->).
    exact IH.
  - injection Hstep as <-. exact IH.
  - injection Hstep as <-. exact IH.
  - destruct (handleSubmit_begin_cases (ui w)) as [Hb | [_ Hb]];
      rewrite Hb in Hstep; injection Hstep as <-; cbn [ui registryPending];
      match goal with
      | |- context [run_effects ?b ?a] =>
          destruct (run_effects_frame b a) as (_ & -> & -> & ->)
      end; exact IH.
  - destruct (nth_error (inflight w) i); [|discriminate].
    destruct (handleSubmit_resolve r (ui w)) as [s'|] eqn:Hr; [|discriminate].
    injection Hstep as <-. cbn [ui registryPending].
    destruct (run_effects_frame (ui w) s') as (_ & -> & -> & ->).
    destruct (handleSubmit_resolve_settles _ _ _ Hr) as (_ & -> & -> & ->).
    exact IH.
  - destruct (registryPending w) eqn:Hp; [|discriminate].
    injection Hstep as <-. cbn [ui registryPending].
    destruct IH as (_ & Hpend & _). destruct (Hpend eq_refl) as [_ Herr].
    destruct (loadModels_resolve_outcome r (ui w)) as [Hl [He | Ho]].
    + split; [exact Hl|]. split; [discriminate|].
      rewrite He, Herr. intros H. congruence.
    + split; [exact Hl|]. split; [discriminate | intros _; exact Ho].
Qed.

Lemma last_cons {A : Type} (ls : list A) (l d : A) :
  last (l :: ls) d = last ls l.
Proof.
  revert l d. induction ls as [|a ls IH]; intros l d; [reflexivity|].
  change (last (l :: a :: ls) d) with (last (a :: ls) d).
  rewrite (IH a d), (IH a l). reflexivity.
Qed.

(** X12.  Before the first submission the transcript depends on the
    current language only: after any sequence of language choices it is
    the scripted exchange in the language chosen last, three messages and
    no more, however often the language was switched. *)
Theorem X12_language_toggles_never_duplicate_the_seed
    (ls : list Lang) (w : World) :
  reachable w ->
  hasInteracted (ui w) = false ->
  exists w',
    run (map ClickLang ls) w = Some w'
    /\ lang (ui w') = last ls (lang (ui w))
    /\ messages (ui w') = seedTranscript (last ls (lang (ui w)))
    /\ List.length (messages (ui w')) = 3
    /\ hasInteracted (ui w') = false.
Proof.
  revert w. induction ls as [|l ls IH]; intros w Hreach Hfresh.
  - exists w. destruct (seed_invariant w Hreach Hfresh) as [Hm _].
    cbn [map run last]. rewrite Hm. repeat split. exact Hfresh.
  - cbn [map run dispatch].
    set (w1 := mkWorld (run_effects (ui w) (setLang l (ui w)))
                 (inflight w) (registryPending w)).
    assert (Hreach1 : reachable w1)
      by (apply (reachable_step (ClickLang l) w); [exact Hreach | reflexivity]).
    destruct (run_effects_keeps (ui w) (setLang l (ui w))) as [Hh Hl].
    assert (Hfresh1 : hasInteracted (ui w1) = false)
      by (unfold w1; cbn [ui]; rewrite Hh; exact Hfresh).
    destruct (IH w1 Hreach1 Hfresh1) as (w' & Hrun & Hlang & Hm & Hlen & Hf).
    assert (Hl1 : lang (ui w1) = l) by (unfold w1; cbn [ui]; exact Hl).
    rewrite Hl1 in Hlang, Hm. rewrite last_cons.
    exists w'. repeat split; assumption.
Qed.

(* ------------------------------------------------------------------ *)
(** * More on [loadModels] *)

(** X13.  When the registry answers with a 2xx status and a body that is
    not [null], then: if [data] is an array whose first element is not
    [null], the model options become that array, as received and in its
    order, and the selected model becomes the [id] of its first element;
    if [data] is the empty array, the options become empty and the
    selection is kept; if [data] is not an array, nothing changes.  In
    these three cases the registry error is left as it was, and in every
    case the loading flag is cleared.  (An array whose first element is
    [null] takes the exception path of X14.) *)
Theorem X13_registry_success_selects_first_model
    (http_status : N) (data : value) (s : State) :
  ok http_status = true ->
  nullish data = false ->
  let s' := loadModels_resolve true (FetchResponse http_status (BodyJson data)) s in
  (forall first rest,
      get data (lit "data") = JArr (first :: rest) -> nullish first = false ->
      s' = setModelsLoading false
             (setModelName (get first (lit "id"))
                (setModelOptions (first :: rest) s))
      /\ modelsError s' = modelsError s)
  /\ (get data (lit "data") = JArr [] ->
      s' = setModelsLoading false (setModelOptions [] s)
      /\ modelsError s' = modelsError s)
  /\ (isArray (get data (lit "data")) = false ->
      s' = setModelsLoading false s
      /\ modelsError s' = modelsError s)
  /\ modelsLoading s' = false.
Proof.
  intros Hok Hdata s'. subst s'.
  unfold loadModels_resolve, loadModels_try, get_checked.
  rewrite Hok, Hdata. cbn [negb].
  split; [|split; [|split]].
  - intros first rest -> Hfirst. rewrite Hfirst. split; reflexivity.
  - intros ->. split; reflexivity.
  - destruct (get data (lit "data")); try (split; reflexivity). discriminate.
  - destruct (get data (lit "data")) as [| | | | |opts|]; try reflexivity.
    destruct opts as [|first rest]; [reflexivity|].
    destruct (nullish first); reflexivity.
Qed.

(** X14.  Whenever the [try] block of [loadModels] throws after a 2xx
    status (the body does not parse, the body is [null], or the first
    element of [data] is [null]), the model options end empty, also when
    the received list had already been stored, and the message of the
    thrown error is kept as the registry error; the selected model is the
    one the page had. *)
Theorem X14_registry_exception_clears_the_list
    (http_status : N) (s : State) :
  ok http_status = true ->
  let cleared msg :=
    setModelsLoading false
      (setModelsError (Some msg) (setModelOptions [] s)) in
  (forall err,
      loadModels_resolve true (FetchResponse http_status (BodyMalformed err)) s
      = cleared (message_or (lit "Model list failed") err))
  /\ (forall data, nullish data = true ->
      loadModels_resolve true (FetchResponse http_status (BodyJson data)) s
      = cleared (TypeErrorMessage data (lit "data")))
  /\ (forall data first rest,
      nullish data = false ->
      get data (lit "data") = JArr (first :: rest) ->
      nullish first = true ->
      loadModels_resolve true (FetchResponse http_status (BodyJson data)) s
      = cleared (TypeErrorMessage first (lit "id")))
  /\ forall msg, modelOptions (cleared msg) = []
                 /\ modelName (cleared msg) = modelName s.
Proof.
  intros Hok cleared. subst cleared.
  unfold loadModels_resolve, loadModels_try, get_checked.
  rewrite Hok. cbn [negb].
  split; [|split; [|split]].
  - reflexivity.
  - intros data ->. reflexivity.
  - intros data first rest -> -> ->. reflexivity.
  - intros msg. split; reflexivity.
Qed.

(* ------------------------------------------------------------------ *)
(** * The keys of the rendered lists *)

Lemma digit_bytes (d : Decimal.uint) :
  Forall (fun b => (48 <= b <= 57)%N)
    (map N_of_ascii (list_ascii_of_string (NilEmpty.string_of_uint d))).
Proof.
  induction d; cbn [NilEmpty.string_of_uint list_ascii_of_string map];
    constructor; try assumption; cbn; lia.
Qed.

Lemma utf8_decode_ascii (bs : list N) :
  Forall (fun b => (b < 128)%N) bs -> utf8_decode bs = bs.
Proof.
  induction 1 as [|b bs Hb _ IH]; [reflexivity|].
  cbn [utf8_decode]. apply N.ltb_lt in Hb. rewrite Hb, IH. reflexivity.
Qed.

Lemma to_uint_nonnil (n : N) : N.to_uint n <> Decimal.Nil.
Proof.
  destruct n; [discriminate | apply DecimalPos.Unsigned.to_uint_nonnil].
Qed.

(** The decimal form of an index is made of the digits of the index. *)
Lemma decimal_bytes (n : N) :
  decimal n =
  map N_of_ascii
    (list_ascii_of_string (NilEmpty.string_of_uint (N.to_uint n)))
  /\ Forall (fun b => (48 <= b <= 57)%N) (decimal n).
Proof.
  assert (E : NilZero.string_of_uint (N.to_uint n)
              = NilEmpty.string_of_uint (N.to_uint n)).
  { pose proof (to_uint_nonnil n) as H.
    destruct (N.to_uint n); [congruence | reflexivity ..]. }
  unfold decimal, lit. rewrite E.
  pose proof (digit_bytes (N.to_uint n)) as Hd.
  rewrite utf8_decode_ascii.
  - split; [reflexivity | exact Hd].
  - revert Hd. apply Forall_impl. intros b Hb. lia.
Qed.

Lemma decimal_inj (n n' : N) : decimal n = decimal n' -> n = n'.
Proof.
  rewrite (proj1 (decimal_bytes n)), (proj1 (decimal_bytes n')). intros E.
  apply (f_equal (map ascii_of_N)) in E. rewrite !map_map in E.
  rewrite !(map_ext _ (fun a => a) ascii_N_embedding), !map_id in E.
  apply (f_equal string_of_list_ascii) in E.
  rewrite !string_of_list_ascii_of_string in E.
  apply (f_equal NilEmpty.uint_of_string) in E.
  rewrite !NilEmpty.usu in E. injection E as E.
  apply DecimalN.Unsigned.to_uint_inj. exact E.
Qed.

Lemma decimal_no_dash (n : N) : ~ In 45%N (decimal n).
Proof.
  intros H. pose proof (proj2 (decimal_bytes n)) as Hd.
  rewrite Forall_forall in Hd. specialize (Hd _ H). lia.
Qed.

(** A dash followed by a run without dashes is found at one place only. *)
Lemma split_at_last_dash (a b d d' : jsstring) :
  ~ In 45%N d -> ~ In 45%N d' ->
  a ++ 45%N :: d = b ++ 45%N :: d' -> d = d'.
Proof.
  intros Hd Hd'. revert b.
  induction a as [|x a IH]; intros [|y b] E; cbn [app] in E.
  - injection E as E. exact E.
  - injection E as _ E. exfalso. apply Hd. rewrite E.
    apply in_or_app. right. left. reflexivity.
  - injection E as _ E. exfalso. apply Hd'. rewrite <- E.
    apply in_or_app. right. left. reflexivity.
  - injection E as _ E. exact (IH b E).
Qed.

Lemma keys_from_index (idx0 : N) (labels : list jsstring) (k : jsstring) :
  In k (keys_from idx0 labels) ->
  exists l j, (idx0 <= j)%N /\ k = l ++ 45%N :: decimal j.
Proof.
  revert idx0. induction labels as [|l rest IH]; intros idx0; [intros []|].
  cbn [keys_from]. intros [<- | H].
  - exists l, idx0. split; [lia | reflexivity].
  - destruct (IH _ H) as (l' & j & Hj & ->).
    exists l', j. split; [lia | reflexivity].
Qed.

Lemma keys_from_NoDup (idx0 : N) (labels : list jsstring) :
  NoDup (keys_from idx0 labels).
Proof.
  revert idx0. induction labels as [|l rest IH]; intros idx0;
    cbn [keys_from]; constructor; [|apply IH].
  intros H. destruct (keys_from_index _ _ _ H) as (l' & j & Hj & E).
  change (lit "-" ++ decimal idx0) with (45%N :: decimal idx0) in E.
  apply split_at_last_dash in E; try apply decimal_no_dash.
  apply decimal_inj in E. lia.
Qed.

Lemma marker_labels_length (ms : list value) (names : list jsstring) :
  marker_labels ms = Some names -> List.length names = List.length ms.
Proof.
  revert names. induction ms as [|p rest IH]; cbn [marker_labels]; intros names.
  - intros E. injection E as <-. reflexivity.
  - destruct (ToString (get p (lit "name"))); [|discriminate].
    destruct (marker_labels rest) as [names'|]; [|discriminate].
    intros E. injection E as <-. cbn [List.length]. rewrite (IH _ eq_refl).
    reflexivity.
Qed.

(** X16.  The React keys of the markers and of the chat bubbles are
    pairwise different, also when two places have the same name and when
    a name itself ends in a dash and digits: the index at the end of a key
    identifies the element.  This holds for the keys made from any list of
    labels, for the keys of the markers whenever they can be formed (one
    per marker), for the keys in every mounted map, and for the keys of
    the chat bubbles. *)
Theorem X16_rendered_keys_are_distinct :
  (forall idx0 labels,
      NoDup (keys_from idx0 labels)
      /\ List.length (keys_from idx0 labels) = List.length labels)
  /\ (forall ms keys,
        marker_keys ms = Some keys ->
        NoDup keys /\ List.length keys = List.length ms)
  /\ (forall center places m,
        MapView true center places = Some (MapMounted m) ->
        NoDup (mc_keys m))
  /\ (forall msgs : list ChatMessage,
        NoDup (message_keys msgs)
        /\ List.length (message_keys msgs) = List.length msgs).
Proof.
  assert (Hlen : forall idx0 labels,
             List.length (keys_from idx0 labels) = List.length labels).
  { intros idx0 labels. revert idx0.
    induction labels as [|l rest IH]; intros idx0; [reflexivity|].
    cbn [keys_from List.length]. rewrite IH. reflexivity. }
  assert (Hkeys : forall ms keys,
             marker_keys ms = Some keys ->
             NoDup keys /\ List.length keys = List.length ms).
  { intros ms keys. unfold marker_keys.
    destruct (marker_labels ms) as [names|] eqn:Hn; [|discriminate].
    cbn [option_map]. intros E. injection E as <-.
    split; [apply keys_from_NoDup|].
    rewrite Hlen. exact (marker_labels_length ms names Hn). }
  split; [|split; [|split]].
  - intros idx0 labels. split; [apply keys_from_NoDup | apply Hlen].
  - exact Hkeys.
  - intros center places m. unfold MapView.
    destruct (markers places) as [ms|]; [|discriminate]. cbn [negb].
    destruct (Nat.ltb 0 (List.length ms)).
    + destruct (marker_keys ms) as [keys|] eqn:Hk; [|discriminate].
      intros E. injection E as <-. exact (proj1 (Hkeys ms keys Hk)).
    + intros E. injection E as <-. constructor.
  - intros msgs. split; [apply keys_from_NoDup|].
    unfold message_keys. rewrite Hlen. apply length_map.
Qed.

Lemma reachable_run (es : list Event) (w w' : World) :
  reachable w -> run es w = Some w' -> reachable w'.
Proof.
  revert w. induction es as [|e es IH]; intros w Hreach; cbn [run].
  - intros E. injection E as <-. exact Hreach.
  - destruct (dispatch e w) as [w1|] eqn:Hd; [|discriminate].
    apply IH. exact (reachable_step e w w1 Hreach Hd).
Qed.

(** X17.  The model the registry puts first is the one the agent is asked
    with: after a registry answer with a non-empty list, the next request
    carries the [id] of the first model as [model_name], whatever was
    selected before. *)
Theorem X17_registry_selection_reaches_the_agent
    (http_status : N) (data first : value) (rest : list value)
    (s : State) (p : jsstring) :
  ok http_status = true ->
  nullish data = false ->
  get data (lit "data") = JArr (first :: rest) ->
  nullish first = false ->
  trim p <> [] ->
  snd (handleSubmit_begin
         (setInput p
            (loadModels_resolve true
               (FetchResponse http_status (BodyJson data)) s)))
  = Some (mkAgentRequest (trim p) (get first (lit "id"))).
Proof.
  intros Hok Hdata Hlist Hfirst Hp.
  rewrite handleSubmit_begin_nonblank by exact Hp. cbn [snd input setInput].
  unfold loadModels_resolve, loadModels_try, get_checked.
  rewrite Hok, Hdata, Hlist, Hfirst. reflexivity.
Qed.

End Engine.

(* ------------------------------------------------------------------ *)
(** * Examples: the theorems at concrete inputs *)

Example lit_ascii : lit "lat" = [108; 97; 116]%N.
Proof. reflexivity. Qed.

Example lit_bmp : lit "İ…" = [304; 8230]%N.
Proof. reflexivity. Qed.

Example decimal_404 : decimal 404 = lit "404".
Proof. reflexivity. Qed.

Example trim_pads : trim (lit "  a b  ") = lit "a b".
Proof. reflexivity. Qed.

Example truthy_zero : truthy (JNum 0) = false /\ truthy (JNum (-0)) = false.
Proof. split; reflexivity. Qed.

Example ToString_array :
  ToString sample_NumberToString
    (JArr [JStr (lit "a"); JNull; JObj []; JBool true])
  = AsString (lit "a,,[object Object],true").
Proof. reflexivity. Qed.

(** The specification's example: of the places A (with coordinates) and B
    (with [null] coordinates), only A gets a marker. *)
Lemma C3_witness_A_and_B :
  Forall (fun p => nullish p = false) sample_places_AB
  /\ markers (Some sample_places_AB) = Some [sample_placeA].
Proof.
  assert (H : Forall (fun p => nullish p = false) sample_places_AB)
    by (repeat constructor).
  split; [exact H|].
  exact (C3_markers_filter_numeric_coordinates sample_places_AB H).
Defined.

(** An empty list of places: one marker, the default one. *)
Lemma C7_witness_no_places :
  markers (Some []) = Some []
  /\ MapView sample_NumberToString true JNull (Some []) =
     Some (MapMounted
             (mkMapContainer DEFAULT_CENTER 12 None [default_marker] [])).
Proof.
  split; [reflexivity|].
  exact (proj1 (proj2 (proj2
    (C7_default_marker_when_no_markers sample_NumberToString
       JNull (Some []) [] eq_refl)))).
Defined.

(** A centre with a numeric [lat] and no [lon] is not valid, and the view
    centre is neither the supplied centre nor DEFAULT_CENTER: the latitude
    is the supplied one, the longitude the default. *)
Lemma C4_counterexample_lat_only :
  valid_center sample_center_lat_only = false
  /\ viewCenter sample_center_lat_only = (JNum 41.05, JNum 28.9784)
  /\ stated_viewCenter sample_center_lat_only = (JNum 41.0082, JNum 28.9784)
  /\ viewCenter sample_center_lat_only
     <> stated_viewCenter sample_center_lat_only.
Proof.
  split; [reflexivity|]. split; [reflexivity|]. split; [reflexivity|].
  intros H. apply (f_equal fst) in H. vm_compute in H. revert H.
  apply JNum_neq; reflexivity.
Qed.

Lemma C4_witness_lat_only :
  nonzero_number (optchain sample_center_lat_only (lit "lat")) = true
  /\ nullish (optchain sample_center_lat_only (lit "lon")) = true
  /\ viewCenter sample_center_lat_only = (JNum 41.05, snd DEFAULT_CENTER)
  /\ MapUpdater sample_center_lat_only = None.
Proof.
  split; [reflexivity|]. split; [reflexivity|].
  exact (proj1 (proj2 (proj2
    (C4_viewCenter_falls_back_by_component sample_center_lat_only)))
    eq_refl eq_refl).
Defined.

(** A response whose [response] field is present and is the empty string:
    the agent message reads "No response.", not the field. *)
Lemma C1_counterexample_empty_response :
  get sample_response_empty_text (lit "response") = JStr []
  /\ option_map (fun s' => last (messages s') (mkChatMessage user JNull))
       (handleSubmit_resolve
           sample_NumberToString sample_ToPrimitiveErrorMessage
          (FetchResponse 200 (BodyJson sample_response_empty_text))
          sample_typed_cafes)
     = Some (mkChatMessage agent (JStr (lit "No response.")))
  /\ stated_agent_text sample_response_empty_text = JStr []
  /\ agent_text sample_response_empty_text
     <> stated_agent_text sample_response_empty_text.
Proof.
  split; [reflexivity|]. split; [reflexivity|]. split; [reflexivity|].
  vm_compute. discriminate.
Qed.

(** The specification's example response, applied to the first page. *)
Lemma C1_witness_A_and_B :
  ok 200 = true
  /\ nullish sample_response_AB = false
  /\ exists s',
      handleSubmit_resolve sample_NumberToString sample_ToPrimitiveErrorMessage
        (FetchResponse 200 (BodyJson sample_response_AB)) sample_typed_cafes
      = Some s'
      /\ messages s' =
         messages sample_typed_cafes
           ++ [mkChatMessage agent (JStr (lit "Two places."))]
      /\ mapCenter s' = sample_center_AB
      /\ mapPlaces s' = sample_places_AB
      /\ status s' = StatusIdle.
Proof.
  split; [reflexivity|]. split; [reflexivity|].
  destruct (C1_success_appends_reply_and_updates_map
      sample_NumberToString sample_ToPrimitiveErrorMessage
              200 sample_response_AB sample_typed_cafes eq_refl eq_refl)
    as (s' & Hres & Hmsg & _ & _ & Hc & _ & Hp & _ & Hst & _).
  exists s'. split; [exact Hres|]. split; [exact Hmsg|].
  split; [exact (Hc eq_refl)|]. split; [exact (Hp _ eq_refl)|]. exact Hst.
Defined.

(** A rejected [fetch] stores the message of the thrown error, where the
    specification's order of preference gives the generic message; and a
    [detail] field that is present and empty is passed over for the
    message made from the status. *)
Lemma C2_counterexample_network_failure :
  option_map error
    (handleSubmit_resolve
        sample_NumberToString sample_ToPrimitiveErrorMessage sample_network_down
       sample_typed_cafes)
  = Some (Some (lit "Failed to fetch"))
  /\ stated_error_message
      sample_NumberToString sample_ToPrimitiveErrorMessage sample_network_down
     = lit "Unknown error"
  /\ lit "Failed to fetch" <> lit "Unknown error"
  /\ option_map error
       (handleSubmit_resolve
           sample_NumberToString sample_ToPrimitiveErrorMessage
          sample_server_error_empty_detail sample_typed_cafes)
     = Some (Some (lit "Request failed (500)"))
  /\ stated_error_message sample_NumberToString sample_ToPrimitiveErrorMessage
       sample_server_error_empty_detail = []
  /\ lit "Request failed (500)" <> [].
Proof.
  split; [reflexivity|]. split; [reflexivity|].
  split; [vm_compute; discriminate|]. split; [reflexivity|].
  split; [reflexivity | vm_compute; discriminate].
Qed.

Lemma C2_witness_detail :
  agent_call_failed sample_server_error_with_detail = true
  /\ exists s',
      handleSubmit_resolve sample_NumberToString sample_ToPrimitiveErrorMessage
        sample_server_error_with_detail sample_typed_cafes = Some s'
      /\ status s' = StatusError
      /\ error s' = Some (lit "Agent error")
      /\ messages s' = messages sample_typed_cafes
      /\ mapCenter s' = mapCenter sample_typed_cafes
      /\ mapPlaces s' = mapPlaces sample_typed_cafes.
Proof.
  split; [reflexivity|].
  destruct (C2_failure_stores_message
      sample_NumberToString sample_ToPrimitiveErrorMessage
              sample_server_error_with_detail sample_typed_cafes eq_refl)
    as (msg & s' & Hres & Hst & Herr & _ & _ & Hd & Hm & Hc & Hp).
  exists s'. split; [exact Hres|]. split; [exact Hst|].
  split; [|split; [exact Hm | split; [exact Hc | exact Hp]]].
  rewrite Herr.
  destruct (Hd 502%N _ eq_refl eq_refl) as (_ & Hstr & _).
  rewrite (Hstr (lit "Agent error") eq_refl); [reflexivity|].
  vm_compute. discriminate.
Defined.

(** A prompt of blanks only. *)
Lemma C5_witness_blanks :
  trim (input (ui (mkWorld (setInput (lit "   ") (ui mount)) [] true))) = []
  /\ dispatch
      sample_NumberToString sample_TypeErrorMessage
      sample_ToPrimitiveErrorMessage Submit
       (mkWorld (setInput (lit "   ") (ui mount)) [] true)
     = Some (mkWorld (setInput (lit "   ") (ui mount)) [] true).
Proof.
  split; [reflexivity|].
  exact (proj2 (C5_blank_prompt_is_ignored sample_NumberToString
                  sample_TypeErrorMessage sample_ToPrimitiveErrorMessage
                  (mkWorld (setInput (lit "   ") (ui mount)) [] true)
                  eq_refl)).
Defined.

Lemma C10_witness_network_failure :
  trim (input sample_typed_cafes) <> []
  /\ agent_call_failed sample_network_down = true
  /\ exists s1 s2,
      fst (handleSubmit_begin sample_typed_cafes) = s1
      /\ input s1 = []
      /\ handleSubmit_resolve
          sample_NumberToString sample_ToPrimitiveErrorMessage sample_network_down s1
         = Some s2
      /\ input s2 = []
      /\ messages s2 = messages s1.
Proof.
  assert (Hp : trim (input sample_typed_cafes) <> [])
    by (vm_compute; discriminate).
  split; [exact Hp|]. split; [reflexivity|].
  destruct (C10_failed_submit_does_not_restore_input
      sample_NumberToString sample_ToPrimitiveErrorMessage
              sample_typed_cafes sample_network_down Hp eq_refl)
    as (s1 & req & s2 & Hb & _ & Hi1 & _ & _ & Hr & Hi2 & Hm & _).
  exists s1, s2. rewrite Hb.
  split; [reflexivity|]. split; [exact Hi1|]. split; [exact Hr|].
  split; [exact Hi2 | exact Hm].
Defined.

(** The first real submission: the three scripted messages are still at
    the head of the transcript, the user's message after them. *)
Lemma C6_counterexample_seed_not_replaced :
  option_map (fun w => messages (ui w))
    (run
        sample_NumberToString sample_TypeErrorMessage
        sample_ToPrimitiveErrorMessage
       [TypeInput (lit " cafes "); Submit] mount)
  = Some (seedTranscript en ++ [mkChatMessage user (JStr (lit "cafes"))])
  /\ seedTranscript en ++ [mkChatMessage user (JStr (lit "cafes"))]
     <> [mkChatMessage user (JStr (lit "cafes"))].
Proof. split; [reflexivity | vm_compute; discriminate]. Qed.

Lemma C6_witness_first_page :
  reachable
      sample_NumberToString sample_TypeErrorMessage
      sample_ToPrimitiveErrorMessage mount
  /\ hasInteracted (ui mount) = false
  /\ messages (ui mount) = seedTranscript en
  /\ exists w',
      dispatch
          sample_NumberToString sample_TypeErrorMessage
          sample_ToPrimitiveErrorMessage (ClickLang tr)
        mount = Some w'
      /\ messages (ui w') = seedTranscript tr.
Proof.
  assert (Hr : reachable
      sample_NumberToString sample_TypeErrorMessage
      sample_ToPrimitiveErrorMessage mount)
    by constructor.
  split; [exact Hr|]. split; [reflexivity|].
  destruct (C6_seed_is_kept_and_appended_to sample_NumberToString
              sample_TypeErrorMessage sample_ToPrimitiveErrorMessage mount Hr eq_refl) as (Hm & Hl & _).
  split; [exact Hm|].
  destruct (Hl tr) as (w' & Hd & _ & Hm').
  exists w'. split; [exact Hd | exact Hm'].
Defined.

Lemma C8_witness_network_failure :
  registry_fetch_failed sample_network_down = true
  /\ registryPending mount = true
  /\ exists w',
      dispatch
          sample_NumberToString sample_TypeErrorMessage
          sample_ToPrimitiveErrorMessage
        (RegistrySettled sample_network_down) mount = Some w'
      /\ modelOptions (ui w') = []
      /\ modelsError (ui w') = Some (lit "Failed to fetch")
      /\ modelName (ui w') = JStr (lit "openai/gpt-4o-mini").
Proof.
  split; [reflexivity|]. split; [reflexivity|].
  destruct (C8_registry_failure_clears_options sample_NumberToString
              sample_TypeErrorMessage sample_ToPrimitiveErrorMessage sample_network_down mount
              eq_refl eq_refl)
    as (w' & Hd & _ & Ho & _ & He & _ & _ & Hn & _).
  exists w'. split; [exact Hd|]. split; [exact Ho|].
  split; [exact (He _ eq_refl) | exact Hn].
Defined.

(** Call 1 settles after call 2: the page ends with the centre, the places
    and, as last message, the reply of call 1, not those of call 2. *)
Lemma C9_counterexample_stale_response_applied :
  option_map
    (fun w => (mapCenter (ui w), mapPlaces (ui w),
               last (messages (ui w)) (mkChatMessage user JNull)))
    (run
        sample_NumberToString sample_TypeErrorMessage
        sample_ToPrimitiveErrorMessage sample_overtaking mount)
  = Some (sample_center_1, [], mkChatMessage agent (JStr (lit "one")))
  /\ sample_center_1 <> sample_center_2
  /\ @nil value <> [sample_placeA]
  /\ JStr (lit "one") <> JStr (lit "two").
Proof.
  split; [reflexivity|]. split; [|split; [discriminate | vm_compute; discriminate]].
  intros H.
  apply (f_equal (fun c => get c (lit "lat"))) in H. vm_compute in H.
  revert H. apply JNum_neq; reflexivity.
Qed.

Lemma C9_witness_overtaking :
  trim (lit "cafes") <> [] /\ trim (lit "parks") <> []
  /\ ok 200 = true
  /\ nullish sample_response_1 = false /\ nullish sample_response_2 = false
  /\ exists w',
      run
          sample_NumberToString sample_TypeErrorMessage
          sample_ToPrimitiveErrorMessage sample_overtaking mount
      = Some w'
      /\ mapCenter (ui w') = sample_center_1
      /\ mapPlaces (ui w') = []
      /\ status (ui w') = StatusIdle.
Proof.
  assert (H1 : trim (lit "cafes") <> []) by (vm_compute; discriminate).
  assert (H2 : trim (lit "parks") <> []) by (vm_compute; discriminate).
  split; [exact H1|]. split; [exact H2|]. split; [reflexivity|].
  split; [reflexivity|]. split; [reflexivity|].
  destruct (C9_later_completion_wins sample_NumberToString
              sample_TypeErrorMessage sample_ToPrimitiveErrorMessage mount (lit "cafes") (lit "parks")
              200 200 sample_response_1 sample_response_2
              H1 H2 eq_refl eq_refl eq_refl eq_refl)
    as (w' & Hrun & _ & Hc & Hp & Hs & _).
  exists w'. split; [exact Hrun|]. split; [exact Hc|].
  split; [exact Hp | exact Hs].
Defined.

(* ------------------------------------------------------------------ *)
(** * Examples for the further properties *)

Lemma X2_witness_A_and_B :
  exists m,
    MapView sample_NumberToString true sample_center_AB
      (Some sample_places_AB)
    = Some (MapMounted m)
    /\ Forall (fun mk => is_number (fst (mk_position mk)) = true
                         /\ is_number (snd (mk_position mk)) = true)
         (mc_markers m)
    /\ mc_markers m = [place_marker sample_placeA].
Proof.
  eexists. split; [reflexivity|]. split; [|reflexivity].
  exact (proj1 (X2_markers_stand_on_numbers sample_NumberToString
                  sample_center_AB (Some sample_places_AB) _ eq_refl)).
Defined.

Lemma X3_witness_center_AB :
  MapUpdater sample_center_AB = Some (mkSetView (JNum 41.05) (JNum 29.00) 13)
  /\ (JNum 41.05, JNum 29.00) = viewCenter sample_center_AB.
Proof.
  split; [reflexivity|].
  exact (proj1 (proj2 (proj2
    (X3_MapUpdater_moves_to_viewCenter sample_center_AB)) _ eq_refl)).
Defined.

Lemma X4_witness_A_and_B :
  get sample_response_AB (lit "places") = JArr sample_places_AB
  /\ Forall (fun p => nullish p = false) sample_places_AB
  /\ page_map sample_NumberToString true
       (apply_response sample_response_AB sample_typed_cafes)
     = Some (MapMounted
               (mkMapContainer (JNum 41.05, JNum 29.00) 12
                  (Some (mkSetView (JNum 41.05) (JNum 29.00) 13))
                  [place_marker sample_placeA] [lit "A-0"])).
Proof.
  assert (H : Forall (fun p => nullish p = false) sample_places_AB)
    by (repeat constructor).
  split; [reflexivity|]. split; [exact H|].
  exact (X4_page_map_shows_latest_places sample_NumberToString
           sample_response_AB sample_typed_cafes sample_places_AB eq_refl H).
Defined.

Lemma X5_witness_cafes :
  trim (input (ui (mkWorld sample_typed_cafes [] true))) <> []
  /\ exists w',
      dispatch
          sample_NumberToString sample_TypeErrorMessage
          sample_ToPrimitiveErrorMessage Submit
        (mkWorld sample_typed_cafes [] true) = Some w'
      /\ inflight w' =
         [mkAgentRequest (lit "cafes") (JStr (lit "openai/gpt-4o-mini"))]
      /\ status (ui w') = StatusThinking.
Proof.
  assert (Hp : trim (input (ui (mkWorld sample_typed_cafes [] true))) <> [])
    by (vm_compute; discriminate).
  split; [exact Hp|].
  destruct (X5_submit_starts_a_call sample_NumberToString
              sample_TypeErrorMessage sample_ToPrimitiveErrorMessage _ Hp)
    as (w' & Hd & Hfl & _ & Hst & _).
  exists w'. split; [exact Hd|]. split; [exact Hfl|].
  injection Hst as _ _ Hst _. exact Hst.
Defined.

Lemma X6_witness_cafes :
  snd (handleSubmit_begin sample_typed_cafes)
  = Some (mkAgentRequest (lit "cafes") (JStr (lit "openai/gpt-4o-mini")))
  /\ trim (lit "cafes") = lit "cafes".
Proof.
  split; [reflexivity|].
  exact (proj1 (proj2
    (X6_prompt_sent_is_trimmed sample_typed_cafes
       (mkAgentRequest (lit "cafes") (JStr (lit "openai/gpt-4o-mini")))
       eq_refl))).
Defined.

Lemma X7_witness_retry :
  agent_call_failed sample_network_down = true
  /\ trim (lit "parks") <> []
  /\ ok 200 = true /\ nullish sample_response_1 = false
  /\ exists s3,
      handleSubmit_resolve sample_NumberToString sample_ToPrimitiveErrorMessage
        (FetchResponse 200 (BodyJson sample_response_1))
        (fst (handleSubmit_begin
                (setInput (lit "parks")
                   (agent_catch (ErrorObject (lit "Failed to fetch"))
                      (ui sample_cafes_in_flight)))))
      = Some s3
      /\ status s3 = StatusIdle /\ error s3 = None.
Proof.
  assert (Hp : trim (lit "parks") <> []) by (vm_compute; discriminate).
  split; [reflexivity|]. split; [exact Hp|].
  split; [reflexivity|]. split; [reflexivity|].
  destruct (X7_retry_after_failure
      sample_NumberToString sample_ToPrimitiveErrorMessage
              (ui sample_cafes_in_flight) sample_network_down (lit "parks")
              200 sample_response_1 eq_refl Hp eq_refl eq_refl)
    as (s1 & s2 & s3 & H1 & _ & _ & H2 & _ & _ & H3 & Hst & Herr & _).
  assert (E1 : Some (agent_catch (ErrorObject (lit "Failed to fetch"))
                       (ui sample_cafes_in_flight)) = Some s1) by exact H1.
  injection E1 as <-. subst s2.
  exists s3. split; [exact H3|]. split; [exact Hst | exact Herr].
Defined.

Lemma X8_witness_failed_call :
  hasInteracted (ui sample_cafes_in_flight) = true
  /\ exists w',
      run
          sample_NumberToString sample_TypeErrorMessage
          sample_ToPrimitiveErrorMessage
        [AgentSettled 0 sample_network_down; ClickLang tr]
        sample_cafes_in_flight = Some w'
      /\ hasInteracted (ui w') = true
      /\ exists suffix,
          messages (ui w') = messages (ui sample_cafes_in_flight) ++ suffix
          /\ List.length suffix <= 2.
Proof.
  split; [reflexivity|]. eexists. split; [reflexivity|].
  exact (X8_transcript_only_grows sample_NumberToString
           sample_TypeErrorMessage sample_ToPrimitiveErrorMessage
           [AgentSettled 0 sample_network_down; ClickLang tr]
           sample_cafes_in_flight _ eq_refl eq_refl).
Defined.

Lemma X9_witness_first_page :
  reachable
      sample_NumberToString sample_TypeErrorMessage
      sample_ToPrimitiveErrorMessage mount
  /\ exists l, firstn 3 (messages (ui mount)) = seedTranscript l.
Proof.
  assert (Hr : reachable
      sample_NumberToString sample_TypeErrorMessage
      sample_ToPrimitiveErrorMessage mount)
    by constructor.
  split; [exact Hr|].
  exact (X9_transcript_begins_with_seed sample_NumberToString
           sample_TypeErrorMessage sample_ToPrimitiveErrorMessage mount Hr).
Defined.

Lemma X10_witness_cafes_submitted :
  exists w,
    run
        sample_NumberToString sample_TypeErrorMessage
        sample_ToPrimitiveErrorMessage
      [TypeInput (lit " cafes "); Submit] mount = Some w
    /\ reachable
        sample_NumberToString sample_TypeErrorMessage
        sample_ToPrimitiveErrorMessage w
    /\ status (ui w) = StatusThinking
    /\ inflight w <> [].
Proof.
  eexists. split; [reflexivity|].
  match goal with
  | |- reachable _ _ _ ?w /\ _ =>
      assert (Hr : reachable
          sample_NumberToString sample_TypeErrorMessage
          sample_ToPrimitiveErrorMessage w)
  end.
  { apply (reachable_run
      sample_NumberToString sample_TypeErrorMessage
      sample_ToPrimitiveErrorMessage
             [TypeInput (lit " cafes "); Submit] mount);
      [constructor | reflexivity]. }
  split; [exact Hr|]. split; [reflexivity|].
  exact (X10_thinking_means_a_call_in_flight sample_NumberToString
           sample_TypeErrorMessage sample_ToPrimitiveErrorMessage _ Hr eq_refl).
Defined.

Lemma X11_witness_first_page :
  reachable
      sample_NumberToString sample_TypeErrorMessage
      sample_ToPrimitiveErrorMessage mount
  /\ modelsLoading (ui mount) = registryPending mount
  /\ modelOptions (ui mount) = [].
Proof.
  assert (Hr : reachable
      sample_NumberToString sample_TypeErrorMessage
      sample_ToPrimitiveErrorMessage mount)
    by constructor.
  split; [exact Hr|].
  destruct (X11_registry_flags_are_consistent sample_NumberToString
              sample_TypeErrorMessage sample_ToPrimitiveErrorMessage mount Hr) as (Hl & Hp & _).
  split; [exact Hl | exact (proj1 (Hp eq_refl))].
Defined.

Lemma X12_witness_three_toggles :
  reachable
      sample_NumberToString sample_TypeErrorMessage
      sample_ToPrimitiveErrorMessage mount
  /\ hasInteracted (ui mount) = false
  /\ exists w',
      run
          sample_NumberToString sample_TypeErrorMessage
          sample_ToPrimitiveErrorMessage
        [ClickLang tr; ClickLang en; ClickLang tr] mount = Some w'
      /\ messages (ui w') = seedTranscript tr.
Proof.
  assert (Hr : reachable
      sample_NumberToString sample_TypeErrorMessage
      sample_ToPrimitiveErrorMessage mount)
    by constructor.
  split; [exact Hr|]. split; [reflexivity|].
  destruct (X12_language_toggles_never_duplicate_the_seed

                  sample_NumberToString sample_TypeErrorMessage
                  sample_ToPrimitiveErrorMessage
              [tr; en; tr] mount Hr eq_refl) as (w' & Hrun & _ & Hm & _).
  exists w'. split; [exact Hrun | exact Hm].
Defined.

Lemma X13_witness_two_models :
  ok 200 = true
  /\ nullish sample_registry_body = false
  /\ modelName
       (loadModels_resolve
           sample_NumberToString sample_TypeErrorMessage
           sample_ToPrimitiveErrorMessage true
          (FetchResponse 200 (BodyJson sample_registry_body)) (ui mount))
     = JStr (lit "m/one")
  /\ List.length
       (modelOptions
          (loadModels_resolve
              sample_NumberToString sample_TypeErrorMessage
              sample_ToPrimitiveErrorMessage
             true (FetchResponse 200 (BodyJson sample_registry_body))
             (ui mount))) = 2.
Proof.
  split; [reflexivity|]. split; [reflexivity|].
  destruct (X13_registry_success_selects_first_model sample_NumberToString
              sample_TypeErrorMessage sample_ToPrimitiveErrorMessage 200 sample_registry_body (ui mount)
              eq_refl eq_refl) as (H & _).
  rewrite (proj1 (H _ _ eq_refl eq_refl)). split; reflexivity.
Defined.

Lemma X14_witness_null_first :
  ok 200 = true
  /\ modelOptions
       (loadModels_resolve
           sample_NumberToString sample_TypeErrorMessage
           sample_ToPrimitiveErrorMessage true
          (FetchResponse 200 (BodyJson sample_registry_null_first))
          (ui mount)) = []
  /\ modelsError
       (loadModels_resolve
           sample_NumberToString sample_TypeErrorMessage
           sample_ToPrimitiveErrorMessage true
          (FetchResponse 200 (BodyJson sample_registry_null_first))
          (ui mount))
     = Some (sample_TypeErrorMessage JNull (lit "id")).
Proof.
  split; [reflexivity|].
  destruct (X14_registry_exception_clears_the_list sample_NumberToString
              sample_TypeErrorMessage sample_ToPrimitiveErrorMessage 200 (ui mount) eq_refl)
    as (_ & _ & H & _).
  rewrite (H sample_registry_null_first JNull [] eq_refl eq_refl eq_refl).
  split; reflexivity.
Defined.

Lemma X17_witness_two_models :
  ok 200 = true
  /\ nullish sample_registry_body = false
  /\ trim (lit " cafes ") <> []
  /\ snd (handleSubmit_begin
            (setInput (lit " cafes ")
               (loadModels_resolve sample_NumberToString
                  sample_TypeErrorMessage sample_ToPrimitiveErrorMessage true
                  (FetchResponse 200 (BodyJson sample_registry_body))
                  (ui mount))))
     = Some (mkAgentRequest (lit "cafes") (JStr (lit "m/one"))).
Proof.
  assert (Hp : trim (lit " cafes ") <> []) by (vm_compute; discriminate).
  split; [reflexivity|]. split; [reflexivity|]. split; [exact Hp|].
  exact (X17_registry_selection_reaches_the_agent sample_NumberToString
           sample_TypeErrorMessage sample_ToPrimitiveErrorMessage 200 sample_registry_body _ _ (ui mount)
           (lit " cafes ") eq_refl eq_refl eq_refl eq_refl Hp).
Defined.

(** The conversion of a name or of a [detail] that is an object with an
    own property [toString] throws, also inside an array. *)
Example ToString_own_toString :
  ToString sample_NumberToString (JObj [(lit "toString", JNum 1)])
  = CannotConvert (JObj [(lit "toString", JNum 1)])
  /\ ToString sample_NumberToString
       (JArr [JStr (lit "a"); JObj [(lit "toString", JNum 1)]])
     = CannotConvert (JObj [(lit "toString", JNum 1)])
  /\ ToString sample_NumberToString (JObj [(lit "valueOf", JNum 1)])
     = AsString (lit "[object Object]").
Proof. repeat split. Qed.

(** A [detail] that cannot be converted: the message of the [TypeError]
    is what the page stores. *)
Example handleSubmit_unconvertible_detail :
  option_map error
    (handleSubmit_resolve sample_NumberToString sample_ToPrimitiveErrorMessage
       (FetchResponse 500
          (BodyJson
             (JObj [(lit "detail", JObj [(lit "toString", JStr (lit "x"))])])))
       sample_typed_cafes)
  = Some (Some (lit "Cannot convert object to primitive value")).
Proof. reflexivity. Qed.

(** A place with coordinates whose name cannot be converted: the mounted
    render throws at the key, the first render does not; a [null] place
    makes both throw. *)
Lemma X1_witness_bad_name :
  MapView sample_NumberToString true JNull (Some [sample_place_bad_name])
  = None
  /\ MapView sample_NumberToString false JNull (Some [sample_place_bad_name])
     = Some MapSkeleton
  /\ MapView sample_NumberToString false JNull (Some [JNull]) = None.
Proof.
  destruct (X1_MapView_throws_iff_null_place_or_bad_key sample_NumberToString
              JNull [sample_place_bad_name]) as (_ & [_ Hthrows] & _).
  split; [|split; reflexivity].
  apply Hthrows. right. exists [sample_place_bad_name].
  split; [reflexivity|]. left. eexists. reflexivity.
Defined.

(** Two places of the same name: two keys, different. *)
Lemma X16_witness_same_name :
  marker_keys sample_NumberToString [sample_placeA; sample_placeA]
  = Some [lit "A-0"; lit "A-1"]
  /\ NoDup [lit "A-0"; lit "A-1"].
Proof.
  split; [reflexivity|].
  exact (proj1 (proj1 (proj2
    (X16_rendered_keys_are_distinct sample_NumberToString))
    [sample_placeA; sample_placeA] _ eq_refl)).
Defined.
